(** * Fetch marketing bot: workflow templates, suggestion fallbacks,
      modal navigation and the top-level error handler

    A shallow embedding of the campaign logic of the bot:
    - [handlers/core_clean_actions.py]: the workflow-template dispatcher, the
      suggestion cache with its throttled background refresh, the emergency
      fallback suggestions and the global error handler;
    - [handlers/campaign_submission.py] and [services/monday_service.py]: the
      ticket-creating dispatcher and the unified workflow with its dated
      subtasks;
    - [services/ai_service.py]: suggestion generation and its fallback;
    - [modals/core_modal_system.py]: modal navigation with fallbacks, and
      the dividers added to a modal;
    - [handlers/core_slash_commands.py]: the help command;
    - [services/google_calendar_service.py]: the calendar events behind the
      reminders of the unified workflow.

    Conventions.  A Python [str] is a [string] holding the bytes of its UTF-8
    encoding, an [int] is a [Z], a [list] is a [list], a [dict] with a fixed
    set of keys is a record whose optional keys are [option] fields, a [dict]
    used as a table is a [gmap].  Calls to the chat platform and to the clock
    are explicit: the clock reading is an argument, the platform client is a
    state machine the handlers thread through. *)

From Stdlib Require Import ZArith QArith Lqa String Ascii List Sorted DecimalString Lia.
From stdpp Require Import gmap strings list.
Import ListNotations.

Local Open Scope string_scope.
Local Open Scope Z_scope.
Local Open Scope list_scope.

(** ** Python built-ins used by the handlers *)

Module Py.

(** A string given by its bytes. *)
Definition bytes (l : list nat) : string :=
  string_of_list_ascii (List.map ascii_of_nat l).

Definition NL : string := bytes [10%nat].

(** The code points for which [str.isspace] holds, in UTF-8:
    U+0009..U+000D, U+001C..U+001F, U+0020, U+0085, U+00A0, U+1680,
    U+2000..U+200A, U+2028, U+2029, U+202F, U+205F, U+3000. *)
Definition whitespace : list string :=
  List.map bytes
    [ [9]; [10]; [11]; [12]; [13]; [28]; [29]; [30]; [31]; [32];
      [194; 133]; [194; 160]; [225; 154; 128];
      [226; 128; 128]; [226; 128; 129]; [226; 128; 130]; [226; 128; 131];
      [226; 128; 132]; [226; 128; 133]; [226; 128; 134]; [226; 128; 135];
      [226; 128; 136]; [226; 128; 137]; [226; 128; 138];
      [226; 128; 168]; [226; 128; 169]; [226; 128; 175];
      [226; 129; 159]; [227; 128; 128] ]%nat.

(** [s] without its prefix [p], when it has that prefix. *)
Fixpoint strip_prefix (p s : string) : option string :=
  match p, s with
  | EmptyString, _ => Some s
  | String a p', String b s' =>
      if Ascii.eqb a b then strip_prefix p' s' else None
  | String _ _, EmptyString => None
  end.

(** The rest of [s] after one leading character among [ws]. *)
Fixpoint drop_one (ws : list string) (s : string) : option string :=
  match ws with
  | [] => None
  | w :: ws' =>
      match strip_prefix w s with
      | Some r => Some r
      | None => drop_one ws' s
      end
  end.

Fixpoint drop_leading (fuel : nat) (ws : list string) (s : string) : string :=
  match fuel with
  | O => s
  | S fuel' =>
      match drop_one ws s with
      | Some r => drop_leading fuel' ws r
      | None => s
      end
  end.

Definition rev_string (s : string) : string :=
  string_of_list_ascii (List.rev (list_ascii_of_string s)).

(** [str.lstrip()], [str.rstrip()] and [str.strip()] with no argument. *)
Definition lstrip (s : string) : string :=
  drop_leading (String.length s) whitespace s.

Definition rstrip (s : string) : string :=
  rev_string
    (drop_leading (String.length s) (List.map rev_string whitespace)
       (rev_string s)).

Definition strip (s : string) : string := rstrip (lstrip s).

(** [s.split('\n')]: never empty, one more piece than there are newlines. *)
Fixpoint split_lines (s : string) : list string :=
  match s with
  | EmptyString => [EmptyString]
  | String c r =>
      if Ascii.eqb c (ascii_of_nat 10) then EmptyString :: split_lines r
      else match split_lines r with
           | h :: t => String c h :: t
           | [] => [String c EmptyString]
           end
  end.

(** Truth value of a [str]. *)
Definition truthy (s : string) : bool :=
  match s with EmptyString => false | String _ _ => true end.

(** [x in s] for two [str]. *)
Fixpoint contains (x s : string) : bool :=
  match strip_prefix x s with
  | Some _ => true
  | None =>
      match s with
      | EmptyString => false
      | String _ s' => contains x s'
      end
  end.

(** [str(n)] for an [int]. *)
Definition str (n : Z) : string := NilZero.string_of_int (Z.to_int n).

(** [l * n] for a list and an [int]: empty when [n <= 0]. *)
Definition repeat_list {A} (l : list A) (n : Z) : list A :=
  List.concat (List.repeat l (Z.to_nat n)).

(** [l[:n]]: the first [n] elements, or all but the last [-n] when [n < 0]. *)
Definition slice_to {A} (l : list A) (n : Z) : list A :=
  if 0 <=? n then firstn (Z.to_nat n) l
  else firstn (length l - Z.to_nat (- n)) l.

(** [len(l)] as an [int]. *)
Definition len {A} (l : list A) : Z := Z.of_nat (length l).

(** No character of the string is a newline. *)
Fixpoint newline_free (s : string) : bool :=
  match s with
  | EmptyString => true
  | String c r => negb (Ascii.eqb c (ascii_of_nat 10)) && newline_free r
  end.

(** The strings that [lstrip] consumes whole: the empty one, and those that
    lose one leading whitespace character to such a string. *)
Inductive blank : string -> Prop :=
| blank_empty : blank EmptyString
| blank_step (s s' : string) : drop_one whitespace s = Some s' -> blank s' -> blank s.

End Py.

(** ** [datetime] and [timedelta] of the standard library

    A naive [datetime] is the number of microseconds since
    0001-01-01T00:00:00; a [timedelta] is a number of microseconds.  [add]
    and [sub] are the sum and the difference; [add_checked] is the sum with
    the range check of the library (years 1 to 9999), which raises an
    [OverflowError] out of the range. *)

Module Datetime.

Definition datetime := Z.
Definition timedelta := Z.

Definition US_PER_DAY : Z := 86400000000.

(** [timedelta(days=d)] *)
Definition days (d : Z) : timedelta := d * US_PER_DAY.

Definition add (t : datetime) (d : timedelta) : datetime := t + d.
Definition sub (t : datetime) (d : timedelta) : datetime := t - d.

(** The ordinal of 9999-12-31, the last day of the library. *)
Definition MAXORDINAL : Z := 3652059.

(** [datetime.max], 9999-12-31T23:59:59.999999. *)
Definition max : datetime := MAXORDINAL * US_PER_DAY - 1.

Definition in_range (t : datetime) : bool := (0 <=? t) && (t <=? max).

(** [t + d] as the interpreter computes it: [None] stands for the
    [OverflowError] raised when the sum is not a date of the years 1 to
    9999. *)
Definition add_checked (t : datetime) (d : timedelta) : option datetime :=
  if in_range (add t d) then Some (add t d) else None.

Definition DAYS_IN_MONTH : list Z := [-1; 31; 28; 31; 30; 31; 30; 31; 31; 30; 31; 30; 31].
Definition DAYS_BEFORE_MONTH : list Z :=
  [-1; 0; 31; 59; 90; 120; 151; 181; 212; 243; 273; 304; 334].

Definition tbl (l : list Z) (i : Z) : Z := List.nth (Z.to_nat i) l 0.
Definition b2z (b : bool) : Z := if b then 1 else 0.

(** [_ord2ymd]: proleptic Gregorian ordinal (1 is 0001-01-01) to
    year, month, day. *)
Definition ord2ymd (ordinal : Z) : Z * Z * Z :=
  let n := ordinal - 1 in
  let n400 := n / 146097 in
  let n := n mod 146097 in
  let year := n400 * 400 + 1 in
  let n100 := n / 36524 in
  let n := n mod 36524 in
  let n4 := n / 1461 in
  let n := n mod 1461 in
  let n1 := n / 365 in
  let n := n mod 365 in
  let year := year + n100 * 100 + n4 * 4 + n1 in
  if (n1 =? 4) || (n100 =? 4) then (year - 1, 12, 31)
  else
    let leapyear := (n1 =? 3) && (negb (n4 =? 24) || (n100 =? 3)) in
    let month := Z.shiftr (n + 50) 5 in
    let preceding := tbl DAYS_BEFORE_MONTH month + b2z ((2 <? month) && leapyear) in
    if n <? preceding then
      let month := month - 1 in
      let preceding := preceding - (tbl DAYS_IN_MONTH month + b2z ((month =? 2) && leapyear)) in
      (year, month, n - preceding + 1)
    else (year, month, n - preceding + 1).

(** [n] in decimal, padded with zeros on the left to [w] digits. *)
Definition pad (w : nat) (n : Z) : string :=
  let s := Py.str n in
  string_of_list_ascii (List.repeat "0"%char (w - String.length s)) +:+ s.

(** [datetime.isoformat()]: [YYYY-MM-DDTHH:MM:SS], followed by [.ffffff]
    when the microsecond is not zero. *)
Definition isoformat (t : datetime) : string :=
  let '(y, m, d) := ord2ymd (t / US_PER_DAY + 1) in
  let r := t mod US_PER_DAY in
  let us := r mod 1000000 in
  let s := r / 1000000 in
  pad 4 y +:+ "-" +:+ pad 2 m +:+ "-" +:+ pad 2 d +:+ "T"
    +:+ pad 2 (s / 3600) +:+ ":" +:+ pad 2 ((s / 60) mod 60) +:+ ":" +:+ pad 2 (s mod 60)
    +:+ (if us =? 0 then "" else "." +:+ pad 6 us).

(** [datetime(y, m, d, hh, mm, ss)] for a day given by its ordinal. *)
Definition of_ordinal (ordinal hh mm ss us : Z) : datetime :=
  (ordinal - 1) * US_PER_DAY + ((hh * 60 + mm) * 60 + ss) * 1000000 + us.

End Datetime.

(** ** The chat platform as the handlers see it

    A handler runs against a client whose every call either returns a
    response or raises.  The client is a state machine [api]; a handler is a
    function of the client state that yields a value or an exception, the next
    client state, and the calls and log lines it produced, in order. *)

Module Slack.

(** Exceptions: [ValueError], and every other subclass of [Exception]
    (the platform's own API error among them), each with its message. *)
Inductive exn :=
| ValueError (msg : string)
| OtherError (msg : string).

(** [str(e)] *)
Definition message (e : exn) : string :=
  match e with ValueError m | OtherError m => m end.

Inductive level := Debug | Info | Warning | Error.

Inductive call (Modal : Type) :=
| views_open (trigger_id : string) (view : Modal)
| views_update (view_id : string) (view : Modal)
| views_push (trigger_id : string) (view : Modal)
| chat_postMessage (channel text : string).
Arguments views_open {Modal}.
Arguments views_update {Modal}.
Arguments views_push {Modal}.
Arguments chat_postMessage {Modal}.

Inductive event (Modal : Type) :=
| Api (c : call Modal)
| Log (logger : string) (l : level) (text : string).
Arguments Api {Modal}.
Arguments Log {Modal}.

(** The event body of the platform: the keys the handlers read.  A key that
    is absent is [None]. *)
Record View := { id : option string }.
Record User := { user_id : option string }.
Record Body := {
  trigger_id : option string;
  view : option View;
  user : option User
}.

Section Client.
Context {Modal Resp C : Type}.
Variable api : call Modal -> C -> (Resp + exn) * C.

Definition M (A : Type) : Type := C -> (A + exn) * C * list (event Modal).

Definition ret {A} (a : A) : M A := fun s => (inl a, s, []).
Definition raise {A} (e : exn) : M A := fun s => (inr e, s, []).

Definition bind {A B} (m : M A) (k : A -> M B) : M B :=
  fun s =>
    match m s with
    | (inl a, s1, t1) => let '(r, s2, t2) := k a s1 in (r, s2, t1 ++ t2)
    | (inr e, s1, t1) => (inr e, s1, t1)
    end.

(** [try: m  except Exception as e: h e] *)
Definition try_except {A} (m : M A) (h : exn -> M A) : M A :=
  fun s =>
    match m s with
    | (inl a, s1, t1) => (inl a, s1, t1)
    | (inr e, s1, t1) => let '(r, s2, t2) := h e s1 in (r, s2, t1 ++ t2)
    end.

(** [await client.<method>(...)] *)
Definition await (c : call Modal) : M Resp :=
  fun s => let '(r, s1) := api c s in (r, s1, [Api c]).

Definition log (logger : string) (l : level) (text : string) : M unit :=
  fun s => (inl tt, s, [Log logger l text]).

End Client.

(** The platform calls among the events of a run. *)
Definition calls {Modal} (t : list (event Modal)) : list (call Modal) :=
  omap (fun e => match e with Api c => Some c | Log _ _ _ => None end) t.

End Slack.

Declare Scope slack_scope.
Notation "'do' x <- m ;; k" := (Slack.bind m (fun x => k))
  (at level 10, x binder, m at level 90, k at level 200) : slack_scope.

(** ** Workflow templates of [handlers/core_clean_actions.py] *)

Module Templates.

(** One entry of a workflow template. *)
Record TaskSpec := {
  name : string;
  description : string;
  assignee : string;
  estimated_duration : string;
  dependencies : list string;
  calendar_reminder : bool
}.

Definition get_event_planning_workflow_template : list TaskSpec := [
  {| name := "Vendor Coordination & Calls";
     description := "Contact and coordinate with event vendors";
     assignee := "Kate or Karen";
     estimated_duration := "2-3 hours";
     dependencies := [];
     calendar_reminder := true |};
  {| name := "Creative Team Collaboration for Visual Experience";
     description := "Work with creative team on event visual design and branding";
     assignee := "Kate or Karen";
     estimated_duration := "3-4 hours";
     dependencies := ["Vendor Coordination & Calls"];
     calendar_reminder := true |};
  {| name := "Physical Event Logistics Planning";
     description := "Plan event setup, layout, equipment, and operational details";
     assignee := "Kate or Karen";
     estimated_duration := "4-5 hours";
     dependencies := ["Creative Team Collaboration for Visual Experience"];
     calendar_reminder := true |};
  {| name := "Event Setup and Operations";
     description := "On-site event setup and day-of operations management";
     assignee := "Kate or Karen";
     estimated_duration := "6-8 hours";
     dependencies := ["Physical Event Logistics Planning"];
     calendar_reminder := true |};
  {| name := "Post-Event Wrap-up and Vendor Coordination";
     description := "Event breakdown, vendor settlements, and post-event coordination";
     assignee := "Kate or Karen";
     estimated_duration := "2-3 hours";
     dependencies := ["Event Setup and Operations"];
     calendar_reminder := true |}
].

Definition get_email_campaign_workflow_template : list TaskSpec := [
  {| name := "Email Template Build";
     description := "Create and design email invitation template";
     assignee := "Jheryl";
     estimated_duration := "2-3 hours";
     dependencies := [];
     calendar_reminder := false |};
  {| name := "Email Content Creation & Copy";
     description := "Write email content, subject lines, and call-to-action copy";
     assignee := "Jheryl";
     estimated_duration := "1-2 hours";
     dependencies := ["Email Template Build"];
     calendar_reminder := false |};
  {| name := "Email Invitation Scheduling";
     description := "Schedule email invitations and set up delivery timing";
     assignee := "Jheryl";
     estimated_duration := "1 hour";
     dependencies := ["Email Content Creation & Copy"];
     calendar_reminder := false |};
  {| name := "Attendee Communication Setup";
     description := "Set up automated attendee communication workflows";
     assignee := "Jheryl";
     estimated_duration := "1-2 hours";
     dependencies := ["Email Invitation Scheduling"];
     calendar_reminder := false |};
  {| name := "RSVP Management System";
     description := "Configure RSVP tracking and management system";
     assignee := "Jheryl";
     estimated_duration := "1-2 hours";
     dependencies := ["Attendee Communication Setup"];
     calendar_reminder := false |};
  {| name := "Email Campaign QA & Send";
     description := "Quality assurance testing and final email campaign send";
     assignee := "Jheryl";
     estimated_duration := "1 hour";
     dependencies := ["RSVP Management System"];
     calendar_reminder := false |}
].

(** A parent record: keys [name], [assignees], [tasks], [total_tasks]. *)
Record Parent := {
  parent_name : string;
  assignees : list string;
  tasks : list TaskSpec;
  total_tasks : Z
}.

(** The summary record the dispatcher returns.  The dual workflow has the
    keys [event_planning_parent], [email_campaign_parent],
    [event_planning_tasks], [email_campaign_tasks] and [total_parents]; the
    email-only workflow has [email_campaign_parent], [total_tasks] and
    [total_parents]. *)
Record WorkflowResult := {
  event_planning_parent : option Parent;
  email_campaign_parent : option Parent;
  event_planning_tasks : option Z;
  email_campaign_tasks : option Z;
  result_total_tasks : option Z;
  total_parents : Z
}.

Definition create_dual_parent_ticket_workflow
    (name goal target user_id : string) : WorkflowResult :=
  let event_planning_tasks := get_event_planning_workflow_template in
  let email_campaign_tasks := get_email_campaign_workflow_template in
  {| event_planning_parent := Some
       {| parent_name := "Event Planning: " +:+ name;
          assignees := ["Kate"; "Karen"];
          tasks := event_planning_tasks;
          total_tasks := Py.len event_planning_tasks |};
     email_campaign_parent := Some
       {| parent_name := "Email Campaign: " +:+ name;
          assignees := ["Jheryl"];
          tasks := email_campaign_tasks;
          total_tasks := Py.len email_campaign_tasks |};
     event_planning_tasks := Some (Py.len event_planning_tasks);
     email_campaign_tasks := Some (Py.len email_campaign_tasks);
     result_total_tasks := None;
     total_parents := 2 |}.

Definition create_email_only_workflow
    (name goal target user_id : string) : WorkflowResult :=
  let email_tasks := get_email_campaign_workflow_template in
  {| event_planning_parent := None;
     email_campaign_parent := Some
       {| parent_name := "Email Campaign: " +:+ name;
          assignees := ["Jheryl"];
          tasks := email_tasks;
          total_tasks := Py.len email_tasks |};
     event_planning_tasks := None;
     email_campaign_tasks := None;
     result_total_tasks := Some (Py.len email_tasks);
     total_parents := 1 |}.

Definition process_campaign_with_workflow_templates
    (name goal target campaign_type user_id : string) : WorkflowResult :=
  if String.eqb campaign_type "physical_event"
  then create_dual_parent_ticket_workflow name goal target user_id
  else create_email_only_workflow name goal target user_id.

(** The parent records a summary holds. *)
Definition parents (r : WorkflowResult) : list Parent :=
  option_list (event_planning_parent r) ++ option_list (email_campaign_parent r).

End Templates.

(** ** [services/monday_service.py] *)

Module Monday.

(** A parent ticket: keys [id], [name], [assignees], [tasks]. *)
Record Ticket := {
  ticket_id : string;
  ticket_name : string;
  ticket_assignees : list string;
  ticket_tasks : list string
}.

(** The record a campaign creation returns.  A physical-event campaign has
    the keys [event_ticket], [email_ticket], [event_board_url] and
    [email_board_url]; an email-only campaign has [email_ticket] and
    [board_url]. *)
Record CampaignResult := {
  campaign_status : string;
  campaign_type : string;
  event_ticket : option Ticket;
  email_ticket : option Ticket;
  event_board_url : option string;
  email_board_url : option string;
  board_url : option string
}.

(** The parent task of the unified workflow. *)
Record ParentTask := {
  parent_task_id : string;
  parent_task_name : string;
  parent_task_status : string;
  parent_task_assignee : string;
  parent_task_location : string;
  parent_task_created_date : string;
  parent_task_type : string
}.

(** An entry of [standard_subtasks], its due date still a [datetime]. *)
Record SubtaskData := {
  data_name : string;
  data_assignee : string;
  data_due_date : Datetime.datetime;
  data_estimated_duration : string;
  data_dependencies : list string
}.

(** A generated subtask, under the keys of the source. *)
Record Subtask := {
  task_id : string;
  parent_id : string;
  name : string;
  assignee : string;
  due_date : string;
  estimated_duration : string;
  dependencies : list string;
  status : string;
  type : string;
  calendar_reminder : bool
}.

Record UnifiedWorkflow := {
  board_id : string;
  workflow_board_url : string;
  parent_task : ParentTask;
  subtasks : list Subtask;
  total_tasks : Z;
  created_at : string
}.

(** The service is modelled by what it returns; its log lines are left out. *)
Section Service.
(** The interpreter's [hash] on [str], which differs from one process to
    the next. *)
Variable hash : string -> Z.

Definition create_physical_event_campaign (name goal target : string)
    : CampaignResult :=
  let event_ticket :=
    {| ticket_id := "event_" +:+ Py.str (hash name mod 10000);
       ticket_name := "Event Planning: " +:+ name;
       ticket_assignees := ["kate@fetchrewards.com"; "karen@fetchrewards.com"];
       ticket_tasks :=
         ["Venue booking and logistics"; "Event timeline and agenda";
          "Speaker/presenter coordination"; "Materials and setup planning";
          "Registration process"; "On-site execution"; "Post-event follow-up"] |} in
  let email_ticket :=
    {| ticket_id := "email_" +:+ Py.str (hash name mod 10000);
       ticket_name := "Email Campaign: " +:+ name;
       ticket_assignees := ["jheryl@fetchrewards.com"];
       ticket_tasks :=
         ["Email strategy"; "Content creation"; "Audience segmentation";
          "Send automation"; "Performance tracking"] |} in
  {| campaign_status := "created"; campaign_type := "physical_event";
     event_ticket := Some event_ticket; email_ticket := Some email_ticket;
     event_board_url := Some "https://fetchrewards.monday.com/boards/123456";
     email_board_url := Some "https://fetchrewards.monday.com/boards/789012";
     board_url := None |}.

Definition create_email_only_campaign (name goal target : string)
    : CampaignResult :=
  let email_ticket :=
    {| ticket_id := "email_only_" +:+ Py.str (hash name mod 10000);
       ticket_name := "Email Campaign: " +:+ name;
       ticket_assignees := ["jheryl@fetchrewards.com"];
       ticket_tasks :=
         ["Campaign strategy"; "Audience segmentation"; "Content creation";
          "A/B testing"; "Send automation"; "Performance analysis"] |} in
  {| campaign_status := "created"; campaign_type := "email_only";
     event_ticket := None; email_ticket := Some email_ticket;
     event_board_url := None; email_board_url := None;
     board_url := Some "https://fetchrewards.monday.com/boards/789012" |}.

(** The parent tickets a campaign result holds. *)
Definition tickets (r : CampaignResult) : list Ticket :=
  option_list (event_ticket r) ++ option_list (email_ticket r).

(** [now] is the reading of [datetime.now()]. *)
Definition _create_parent_task (now : Datetime.datetime)
    (campaign_name event_dates location requestor : string) : ParentTask :=
  let task_id := "task_" +:+ Py.str (hash campaign_name mod 100000) in
  {| parent_task_id := task_id;
     parent_task_name := campaign_name +:+ " - " +:+ event_dates;
     parent_task_status := "New Request";
     parent_task_assignee := requestor;
     parent_task_location := location;
     parent_task_created_date := Datetime.isoformat now;
     parent_task_type := "parent_task" |}.

(** The reference date: the event-date string is only tested for being
    empty, and both branches (and the handler of the [try]) take the
    clock reading plus 30 days. *)
Definition event_date (now : Datetime.datetime) (event_dates : string)
    : Datetime.datetime :=
  if Py.truthy event_dates
  then Datetime.add now (Datetime.days 30)
  else Datetime.add now (Datetime.days 30).

(** The reference date as the interpreter computes it.  Past [datetime.max]
    the sum raises an [OverflowError]; the bare [except] of the [try] repeats
    the sum, which raises again, and nothing in [_create_campaign_subtasks]
    catches that second exception: [None] stands for it.  Otherwise the date
    is [event_date]. *)
Definition checked_event_date (now : Datetime.datetime) (event_dates : string)
    : option Datetime.datetime :=
  let attempt :=
    if Py.truthy event_dates
    then Datetime.add_checked now (Datetime.days 30)
    else Datetime.add_checked now (Datetime.days 30) in
  match attempt with
  | Some event_date => Some event_date
  | None => Datetime.add_checked now (Datetime.days 30)
  end.

(** [standard_subtasks] as first built. *)
Definition standard_subtasks (event_date : Datetime.datetime) : list SubtaskData := [
  {| data_name := "Deliverable Design";
     data_assignee := "Kelly Redding";
     data_due_date := Datetime.sub event_date (Datetime.days 14);
     data_estimated_duration := "2-3 business days";
     data_dependencies := [] |};
  {| data_name := "Creative Review";
     data_assignee := "Kelly Redding";
     data_due_date := Datetime.sub event_date (Datetime.days 12);
     data_estimated_duration := "1-2 business days";
     data_dependencies := ["Deliverable Design"] |};
  {| data_name := "EDEN Review";
     data_assignee := "Karen or Kate";
     data_due_date := Datetime.sub event_date (Datetime.days 10);
     data_estimated_duration := "1-2 business days";
     data_dependencies := ["Creative Review"] |}
].

(** The stripped, non-empty lines of the deliverables text. *)
Definition deliverable_items (deliverables : string) : list string :=
  List.map Py.strip
    (List.filter (fun item => Py.truthy (Py.strip item)) (Py.split_lines deliverables)).

(** The entry appended for one deliverable. *)
Definition custom_subtask (event_date : Datetime.datetime) (item : string)
    : SubtaskData :=
  {| data_name := "Custom: " +:+ item;
     data_assignee := "To Be Assigned";
     data_due_date := Datetime.sub event_date (Datetime.days 7);
     data_estimated_duration := "TBD";
     data_dependencies := ["EDEN Review"] |}.

(** The subtask object generated for the entry at index [i]. *)
Definition make_subtask (parent_task_id : string) (i : nat)
    (subtask_data : SubtaskData) : Subtask :=
  let subtask_id :=
    "subtask_" +:+ Py.str (hash (parent_task_id +:+ Py.str (Z.of_nat i)) mod 100000) in
  {| task_id := subtask_id;
     parent_id := parent_task_id;
     name := data_name subtask_data;
     assignee := data_assignee subtask_data;
     due_date := Datetime.isoformat (data_due_date subtask_data);
     estimated_duration := data_estimated_duration subtask_data;
     dependencies := data_dependencies subtask_data;
     status := "Not Started";
     type := "subtask";
     calendar_reminder := true |}.

(** The list [_create_campaign_subtasks] returns; it returns one unless the
    reference date overflows, see [checked_event_date]. *)
Definition _create_campaign_subtasks (now : Datetime.datetime)
    (parent_task_id deliverables event_dates : string) : list Subtask :=
  let event_date := event_date now event_dates in
  let standard_subtasks := standard_subtasks event_date in
  let standard_subtasks :=
    if Py.truthy deliverables && Py.truthy (Py.strip deliverables)
    then standard_subtasks
           ++ List.map (custom_subtask event_date) (deliverable_items deliverables)
    else standard_subtasks in
  imap (make_subtask parent_task_id) standard_subtasks.

(** [campaign_data.get(key, default)] *)
Definition get (campaign_data : gmap string string) (key default : string) : string :=
  match campaign_data !! key with
  | Some v => v
  | None => default
  end.

(** The three clock readings are those of [_create_parent_task], of
    [_create_campaign_subtasks] and of [created_at], in that order.  The
    exception that leaves [_create_campaign_subtasks] when its reference date
    overflows is caught by the [try] of this function, which then returns
    [None]. *)
Definition create_unified_campaign_workflow (now1 now2 now3 : Datetime.datetime)
    (campaign_data : gmap string string) : option UnifiedWorkflow :=
  let campaign_name := get campaign_data "event_name" "Untitled Campaign" in
  let event_dates := get campaign_data "event_dates" "" in
  let location := get campaign_data "location" "" in
  let deliverables := get campaign_data "deliverables" "" in
  let requestor := get campaign_data "requestor" "Unknown" in
  let parent_task := _create_parent_task now1 campaign_name event_dates location requestor in
  match checked_event_date now2 event_dates with
  | None => None
  | Some _ =>
      let subtasks :=
        _create_campaign_subtasks now2 (parent_task_id parent_task) deliverables event_dates in
      let board_id := "board_" +:+ Py.str (hash campaign_name mod 100000) in
      Some {| board_id := board_id;
              workflow_board_url := "https://monday.com/boards/" +:+ board_id;
              parent_task := parent_task;
              subtasks := subtasks;
              total_tasks := Py.len subtasks + 1;
              created_at := Datetime.isoformat now3 |}
  end.

(** [create_campaign_board]: the legacy entry, which hands
    [{'event_name': campaign_name, **campaign_data}] to the unified workflow;
    in that dict a key of [campaign_data] takes precedence. *)
Definition create_campaign_board (now1 now2 now3 : Datetime.datetime)
    (campaign_name : string) (campaign_data : gmap string string)
    : option UnifiedWorkflow :=
  create_unified_campaign_workflow now1 now2 now3
    (campaign_data ∪ {["event_name" := campaign_name]}).

End Service.

(** The active campaigns of the dashboard view.  The class defines
    [get_active_campaigns] twice; the later definition, with [limit], is the
    one the class keeps.  Each of the three records reads the clock once. *)
Definition get_active_campaigns (now1 now2 now3 : Datetime.datetime) (limit : Z)
    : list (gmap string string) :=
  let mock_campaigns : list (gmap string string) := [
    list_to_map [
      ("campaign_name", "Receipt Heroes Q3 Launch");
      ("status", "In Progress");
      ("next_due_date", Datetime.isoformat (Datetime.add now1 (Datetime.days 3)));
      ("next_task", "Creative Review");
      ("assignee", "Kelly Redding");
      ("board_url", "https://fetchrewards.monday.com/boards/12345")];
    list_to_map [
      ("campaign_name", "Scan & Earn 2.0 Promo");
      ("status", "Design Phase");
      ("next_due_date", Datetime.isoformat (Datetime.add now2 (Datetime.days 7)));
      ("next_task", "Deliverable Design");
      ("assignee", "Kelly Redding");
      ("board_url", "https://fetchrewards.monday.com/boards/12346")];
    list_to_map [
      ("campaign_name", "Community Meetup - Chicago");
      ("status", "EDEN Review");
      ("next_due_date", Datetime.isoformat (Datetime.add now3 (Datetime.days 1)));
      ("next_task", "EDEN Review");
      ("assignee", "Karen or Kate");
      ("board_url", "https://fetchrewards.monday.com/boards/12347")]
  ] in
  Py.slice_to mock_campaigns limit.

(** The loop of [get_campaign_details]: the first campaign whose ['id'] is
    the one asked for; reading ['id'] from a record without that key raises
    a [KeyError]. *)
Fixpoint find_campaign (campaigns : list (gmap string string)) (campaign_id : string)
    : option (gmap string string) + Slack.exn :=
  match campaigns with
  | [] => inl None
  | campaign :: rest =>
      match campaign !! "id" with
      | None => inr (Slack.OtherError "'id'")
      | Some i =>
          if String.eqb i campaign_id then inl (Some campaign)
          else find_campaign rest campaign_id
      end
  end.

(** [get_campaign_details]: the campaign found, or [None]; with it the lines
    logged at level error. *)
Definition get_campaign_details (now1 now2 now3 : Datetime.datetime) (campaign_id : string)
    : option (gmap string string) * list string :=
  let campaigns := get_active_campaigns now1 now2 now3 10 in
  match find_campaign campaigns campaign_id with
  | inl found => (found, [])
  | inr e => (None, ["Error fetching campaign details: " +:+ Slack.message e])
  end.

End Monday.

(** ** The submission handler of [handlers/campaign_submission.py] *)

Module Submission.

Definition LOGGER : string := "handlers.campaign_submission".

Section Handler.
Context {Modal Resp C : Type}.
Variable api : Slack.call Modal -> C -> (Resp + Slack.exn) * C.
Variable hash : string -> Z.

Local Open Scope slack_scope.

(** The tickets created for a campaign type, with the confirmation
    message: the two branches on [campaign_type]. *)
Definition create_tickets (campaign_name campaign_goal campaign_target campaign_type : string)
    : Monday.CampaignResult * string :=
  if String.eqb campaign_type "physical_event" then
    let result :=
      Monday.create_physical_event_campaign hash campaign_name campaign_goal campaign_target in
    (result,
     "✅ *Physical Event Campaign Created*" +:+ Py.NL +:+ Py.NL +:+ "*" +:+ campaign_name +:+ "*"
       +:+ Py.NL +:+ Py.NL +:+ "• Event Planning Board: "
       +:+ default "" (Monday.event_board_url result)
       +:+ Py.NL +:+ "• Email Campaign Board: "
       +:+ default "" (Monday.email_board_url result)
       +:+ Py.NL +:+ "• Assigned: Kate, Karen, Jheryl")
  else
    let result :=
      Monday.create_email_only_campaign hash campaign_name campaign_goal campaign_target in
    (result,
     "✅ *Email-Only Campaign Created*" +:+ Py.NL +:+ Py.NL +:+ "*" +:+ campaign_name +:+ "*"
       +:+ Py.NL +:+ Py.NL +:+ "• Campaign Board: "
       +:+ default "" (Monday.board_url result)
       +:+ Py.NL +:+ "• Assigned: Jheryl").

(** The handler after the acknowledgement, once the form values are read:
    [campaign_type] is the selected value, ["email_only"] when the form
    carries none. *)
Definition handle_campaign_submission
    (user_id campaign_name campaign_goal campaign_target campaign_type : string)
    : Slack.M (C := C) (Modal := Modal) unit :=
  do _ <- Slack.log LOGGER Slack.Info
            ("Campaign submission: " +:+ campaign_name +:+ " (" +:+ campaign_type
               +:+ ") by " +:+ user_id) ;;
  Slack.try_except
    (let '(result, message) :=
       create_tickets campaign_name campaign_goal campaign_target campaign_type in
     do _ <- Slack.await api (Slack.chat_postMessage user_id message) ;;
     Slack.ret tt)
    (fun e =>
       do _ <- Slack.log LOGGER Slack.Error
                 ("Campaign creation failed: " +:+ Slack.message e) ;;
       do _ <- Slack.await api
                 (Slack.chat_postMessage user_id
                    ("❌ Failed to create campaign: " +:+ Slack.message e)) ;;
       Slack.ret tt).

End Handler.

End Submission.

(** ** Suggestions of [services/ai_service.py] *)

Module AI.

Definition fallbacks : gmap string (list string) :=
  list_to_map [
    ("email",
     ["Weekly Bonus Points Roundup";
      "Exclusive Partner Store Spotlight";
      "Receipt Scanning Tips & Tricks";
      "Member Milestone Celebration";
      "Limited-Time Double Points Offer"]);
    ("social",
     ["#ScanToWin Challenge";
      "Receipt Art Contest";
      "Fetch Friends Referral Drive";
      "Store Partnership Announcements";
      "User Success Story Features"]);
    ("content",
     ["Smart Shopping Guide Blog Series";
      "Receipt Scanning Best Practices";
      "Partner Store Deep Dives";
      "Cashback Optimization Tips";
      "Mobile App Feature Tutorials"]);
    ("event",
     ["Fetch Rewards User Meetup";
      "Partner Store Pop-up Events";
      "Mobile Scanning Workshops";
      "Cashback Celebration Days";
      "Referral Program Launch Events"])
  ].

(** [fallbacks.get(campaign_type, fallbacks["email"])] *)
Definition fallback_list (campaign_type : string) : list string :=
  default (fallbacks !!! "email") (fallbacks !! campaign_type).

Definition _get_fallback_suggestions (campaign_type : string) (count : Z) : list string :=
  let suggestions := fallback_list campaign_type in
  Py.slice_to (Py.repeat_list suggestions (count / Py.len suggestions + 1)) count.

(** [client] is [None] when no API key is configured; [completion] is what
    the chat-completion request yields when it is made: the text of the
    first choice, or [None] when the request or the reading of its answer
    raises. *)
Definition generate_campaign_suggestions (client : option unit)
    (completion : option string) (campaign_type : string) (count : Z) : list string :=
  match client with
  | None => _get_fallback_suggestions campaign_type count
  | Some _ =>
      match completion with
      | Some content =>
          let suggestions :=
            List.map Py.strip
              (List.filter (fun s => Py.truthy (Py.strip s)) (Py.split_lines content)) in
          Py.slice_to suggestions count
      | None => _get_fallback_suggestions campaign_type count
      end
  end.

End AI.

(** ** The suggestion cache of [handlers/core_clean_actions.py] *)

Module Cache.

Definition LOGGER : string := "handlers.core_clean_actions".

Definition fallbacks : gmap string (list string) :=
  list_to_map [
    ("event",
     ["Fetch Field Day - Team-building with brand booths and challenges";
      "Rewards After Dark - Nighttime speakeasy with premium experiences";
      "Receipt Race - Street team event with brand-specific goals"]);
    ("physical_event",
     ["Fetch Field Day - Physical team-building with brand booths and challenges";
      "Rewards After Dark - Nighttime physical speakeasy with premium experiences";
      "Receipt Race - Physical street team event with brand-specific goals"]);
    ("email_only",
     ["Email Reward Challenge - Email-driven loyalty program";
      "Digital Milestone Celebration - Email campaign for user achievements";
      "Email Partner Spotlight - Partner anniversary email series"]);
    ("slides",
     ["Marketing Channel Overview - Visual breakdown of Fetch's amplification";
      "Pilot to Partnership: The First 90 Days - New partner onboarding";
      "Field & Experiential Deck - Past event activations with metrics"]);
    ("campaign",
     ["Brand Love Challenge - Gamified loyalty meets personalization";
      "My First 100,000 Points - User milestone journey sharing";
      "Brand Birthday Bash - Partner anniversaries with multipliers"])
  ].

(** [fallbacks.get(suggestion_type, fallbacks["campaign"])] *)
Definition fallback_list (suggestion_type : string) : list string :=
  default (fallbacks !!! "campaign") (fallbacks !! suggestion_type).

Definition get_fallback_suggestions (suggestion_type : string) (count : Z) : list string :=
  let base := fallback_list suggestion_type in
  Py.slice_to (Py.repeat_list base (count / Py.len base + 1)) count.

(** A value of the [SUGGESTION_CACHE] dict: a list of suggestions, [None],
    or a reading of [time.time()] (a float, taken as the rational it
    denotes). *)
Inductive value :=
| VList (l : list string)
| VNone
| VTime (t : Q).

(** Truth value of a cache value. *)
Definition truthy (v : value) : bool :=
  match v with
  | VList [] => false
  | VList (_ :: _) => true
  | VNone => false
  | VTime t => negb (Qeq_bool t 0)
  end.

Definition SUGGESTION_CACHE : gmap string value :=
  list_to_map [
    ("campaign", VList
     ["Receipt Heroes Series - Feature real users with epic reward redemption stories";
      "Reward Refresh Week - Daily new reward drops and exclusive brand promos";
      "Scan Streaks - Weekly prizes for consecutive scans with leaderboard";
      "Surprise & Delight Drops - Random rewards for scanning within certain windows";
      "Holiday Hacks with Fetch - Position Fetch as money-saving hero for seasonal shopping"]);
    ("physical_event", VList
     ["Fetch Live: Rewards in Real Life - Immersive pop-up with physical receipt scanning";
      "Receipt Relay (Campus Tour) - College roadshow with scanning contests and swag";
      "Brand Partner Summit - Half-day immersion on Fetch's power and data";
      "Receipt Art Gallery - Transform user receipts into curated art experience";
      "Fetch Your Fortune (Festival Activation) - Branded booth with reward fortune tellers"]);
    ("email_only", VList
     ["Receipt Heroes Email Series - Spotlight top users via email campaigns";
      "Weekly Rewards Digest - Email newsletter with new reward announcements";
      "Scan Challenge Email Campaign - Email-driven weekly scanning competitions";
      "Surprise Rewards Email Drop - Email notifications for limited-time bonuses";
      "Holiday Savings Email Series - Email campaign for seasonal shopping tips"]);
    ("slides", VList
     ["Fetch 101: Brand Overview for New Partners - Mission, reach, user behavior showcase";
      "2025 Consumer Trends Report (Powered by Fetch Data) - Proprietary spending insights";
      "Fetch User Journey Map - Scan to reward path visualization";
      "Points Economy Explained - How Fetch points work and drive action";
      "Year-in-Review: Fetch Highlights + Metrics - User growth and standout moments"]);
    ("event", VList
     ["Fetch Live: Rewards in Real Life - Immersive pop-up with physical receipt scanning";
      "Receipt Relay (Campus Tour) - College roadshow with scanning contests and swag";
      "Brand Partner Summit - Half-day immersion on Fetch's power and data";
      "Receipt Art Gallery - Transform user receipts into curated art experience";
      "Fetch Your Fortune (Festival Activation) - Branded booth with reward fortune tellers"]);
    ("last_refresh", VNone)
  ].

(** The coroutines handed to [asyncio.create_task]. *)
Inductive task :=
| refresh_ai_cache_task (suggestion_type : string) (count : Z)
| populate_cache_background_task (suggestion_type : string) (count : Z).

(** What a coroutine of this module does besides computing: it starts a
    detached task, it suspends on the suggestion service until that answers,
    or it writes a log line. *)
Inductive effect :=
| Spawn (t : task)
| AwaitSuggestions (suggestion_type : string) (count : Z)
| LogLine (l : Slack.level) (text : string).

(** [SUGGESTION_CACHE.get("last_refresh", 0) or 0]: a number, or [None]
    here when the stored value is a non-empty list, from which no number
    can be subtracted. *)
Definition cache_age (cache : gmap string value) : option Q :=
  match cache !! "last_refresh" with
  | Some (VTime t) => if Qeq_bool t 0 then Some 0%Q else Some t
  | Some VNone | None => Some 0%Q
  | Some (VList []) => Some 0%Q
  | Some (VList (_ :: _)) => None
  end.

(** [a > b] on clock readings. *)
Definition Qgtb (a b : Q) : bool := negb (Qle_bool a b).

(** [generate_ai_suggestions]: [current_time] is the reading of
    [time.time()].  Returns the suggestions, the cache after the call and
    the effects of the call.  The two places that raise a [TypeError] (a
    slice of a number, a number minus a list) lead to the handler of the
    [try], which logs and returns the fallback suggestions. *)
Definition generate_ai_suggestions (cache : gmap string value) (current_time : Q)
    (suggestion_type : string) (count : Z)
    : list string * gmap string value * list effect :=
  let failed (what : string) :=
    (get_fallback_suggestions suggestion_type count, cache,
     [LogLine Slack.Error ("AI suggestion generation failed: " +:+ what)]) in
  match cache !! suggestion_type with
  | Some v =>
      if truthy v then
        match v with
        | VList l =>
            let cached_suggestions := Py.slice_to l count in
            match cache_age cache with
            | Some age =>
                if Qgtb (current_time - age) 300 then
                  (cached_suggestions,
                   <["last_refresh" := VTime current_time]> cache,
                   [Spawn (refresh_ai_cache_task suggestion_type count)])
                else (cached_suggestions, cache, [])
            | None => failed "unsupported operand type(s) for -: 'float' and 'list'"
            end
        | _ => failed "'float' object is not subscriptable"
        end
      else
        (get_fallback_suggestions suggestion_type count, cache,
         [Spawn (populate_cache_background_task suggestion_type count)])
  | None =>
      (get_fallback_suggestions suggestion_type count, cache,
       [Spawn (populate_cache_background_task suggestion_type count)])
  end.

(** [refresh_ai_cache], run as a task: [answer] is what the awaited
    suggestion service returns, or the exception it raises. *)
Definition refresh_ai_cache (cache : gmap string value)
    (suggestion_type : string) (count : Z) (answer : list string + Slack.exn)
    : gmap string value * list effect :=
  match answer with
  | inl ((_ :: _) as fresh_suggestions) =>
      (<[suggestion_type := VList fresh_suggestions]> cache,
       [AwaitSuggestions suggestion_type count;
        LogLine Slack.Debug ("Refreshed AI cache for " +:+ suggestion_type)])
  | inl [] => (cache, [AwaitSuggestions suggestion_type count])
  | inr e =>
      (cache,
       [AwaitSuggestions suggestion_type count;
        LogLine Slack.Debug ("Failed to refresh AI cache: " +:+ Slack.message e)])
  end.

(** [populate_cache_background], run as a task; [now] is its own reading of
    [time.time()]. *)
Definition populate_cache_background (cache : gmap string value) (now : Q)
    (suggestion_type : string) (count : Z) (answer : list string + Slack.exn)
    : gmap string value * list effect :=
  match answer with
  | inl ((_ :: _) as suggestions) =>
      (<["last_refresh" := VTime now]> (<[suggestion_type := VList suggestions]> cache),
       [AwaitSuggestions suggestion_type count;
        LogLine Slack.Debug ("Background cache populated for " +:+ suggestion_type)])
  | inl [] => (cache, [AwaitSuggestions suggestion_type count])
  | inr e =>
      (cache,
       [AwaitSuggestions suggestion_type count;
        LogLine Slack.Debug ("Background cache population failed: " +:+ Slack.message e)])
  end.

(** What happens to the cache over time: a handler calls
    [generate_ai_suggestions] at a clock reading, a refresh task completes,
    a population task completes at a clock reading. *)
Inductive occurrence :=
| Called (now : Q) (suggestion_type : string) (count : Z)
| Refreshed (suggestion_type : string) (count : Z) (answer : list string + Slack.exn)
| Populated (now : Q) (suggestion_type : string) (count : Z)
    (answer : list string + Slack.exn).

Definition occurrence_time (o : occurrence) : option Q :=
  match o with
  | Called now _ _ | Populated now _ _ _ => Some now
  | Refreshed _ _ _ => None
  end.

Definition advance (cache : gmap string value) (o : occurrence)
    : gmap string value * list effect :=
  match o with
  | Called now suggestion_type count =>
      let '(_, cache', effects) := generate_ai_suggestions cache now suggestion_type count in
      (cache', effects)
  | Refreshed suggestion_type count answer =>
      refresh_ai_cache cache suggestion_type count answer
  | Populated now suggestion_type count answer =>
      populate_cache_background cache now suggestion_type count answer
  end.

Definition is_refresh_spawn (e : effect) : bool :=
  match e with
  | Spawn (refresh_ai_cache_task _ _) => true
  | _ => false
  end.

Definition is_await (e : effect) : bool :=
  match e with
  | AwaitSuggestions _ _ => true
  | _ => false
  end.

(** The clock readings at which a call spawned a refresh task, in order. *)
Fixpoint refresh_times (cache : gmap string value) (os : list occurrence) : list Q :=
  match os with
  | [] => []
  | o :: os' =>
      let '(cache', effects) := advance cache o in
      match o with
      | Called now _ _ =>
          if existsb is_refresh_spawn effects
          then now :: refresh_times cache' os'
          else refresh_times cache' os'
      | _ => refresh_times cache' os'
      end
  end.

(** The cache age is at least [lo], when it is a number at all. *)
Definition age_from (cache : gmap string value) (lo : Q) : Prop :=
  match cache_age cache with
  | Some age => (lo <= age)%Q
  | None => True
  end.

(** The clock readings of the occurrences never go back. *)
Definition clock_monotone (os : list occurrence) : Prop :=
  StronglySorted Qle (omap occurrence_time os).

End Cache.

(** ** Modal navigation of [modals/core_modal_system.py] *)

Module Nav.

Definition LOGGER : string := "modals.core_modal_system".

(** ["view" in body and "id" in body["view"]], with [body["view"]["id"]]. *)
Definition view_id (body : Slack.Body) : option string :=
  match Slack.view body with
  | Some v => Slack.id v
  | None => None
  end.

(** ["trigger_id" in body and body["trigger_id"]], with the identifier. *)
Definition trigger (body : Slack.Body) : option string :=
  match Slack.trigger_id body with
  | Some t => if Py.truthy t then Some t else None
  | None => None
  end.

(** The navigation method chosen for ["auto"]. *)
Definition detect (body : Slack.Body) (navigation_type : string) : string :=
  if String.eqb navigation_type "auto" then
    if bool_decide (is_Some (view_id body)) then "update"
    else if bool_decide (is_Some (trigger body)) then "open"
    else if bool_decide (is_Some (Slack.view body)) then "update" else "open"
  else navigation_type.

Section Navigation.
Context {Modal Resp C : Type}.
Variable api : Slack.call Modal -> C -> (Resp + Slack.exn) * C.

Local Open Scope slack_scope.
Local Abbreviation M := (Slack.M (C := C) (Modal := Modal)).

(** The body of the outer [try]. *)
Definition navigate (body : Slack.Body) (modal : Modal) (navigation_type : string)
    : M Resp :=
  let navigation_type := detect body navigation_type in
  if String.eqb navigation_type "update" then
    match view_id body with
    | None =>
        do _ <- Slack.log LOGGER Slack.Warning
                  "Cannot update modal: no view ID found, falling back to open" ;;
        match trigger body with
        | Some t => Slack.await api (Slack.views_open t modal)
        | None => Slack.raise (Slack.ValueError "No trigger_id available for fallback")
        end
    | Some v =>
        Slack.try_except (Slack.await api (Slack.views_update v modal))
          (fun e =>
             do _ <- Slack.log LOGGER Slack.Warning
                       ("views_update failed: " +:+ Slack.message e
                          +:+ ", attempting fallback") ;;
             match trigger body with
             | Some t => Slack.await api (Slack.views_open t modal)
             | None => Slack.raise e
             end)
    end
  else if String.eqb navigation_type "push" then
    match trigger body with
    | None =>
        do _ <- Slack.log LOGGER Slack.Warning
                  "Cannot push modal: no trigger_id found, falling back to update" ;;
        match view_id body with
        | Some v => Slack.await api (Slack.views_update v modal)
        | None => Slack.raise (Slack.ValueError "No view ID available for fallback")
        end
    | Some t =>
        Slack.try_except (Slack.await api (Slack.views_push t modal))
          (fun e =>
             do _ <- Slack.log LOGGER Slack.Warning
                       ("views_push failed: " +:+ Slack.message e
                          +:+ ", attempting fallback to update") ;;
             match view_id body with
             | Some v => Slack.await api (Slack.views_update v modal)
             | None => Slack.raise e
             end)
    end
  else if String.eqb navigation_type "open" then
    match trigger body with
    | None =>
        do _ <- Slack.log LOGGER Slack.Warning
                  "Cannot open modal: no trigger_id found, falling back to update" ;;
        match view_id body with
        | Some v => Slack.await api (Slack.views_update v modal)
        | None => Slack.raise (Slack.ValueError "No trigger_id or view ID available")
        end
    | Some t => Slack.await api (Slack.views_open t modal)
    end
  else Slack.raise (Slack.ValueError ("Invalid navigation_type: " +:+ navigation_type)).

(** The last resort of the outer handler: every method still available,
    each failure passed over, then the final exception. *)
Definition last_resort (body : Slack.Body) (modal : Modal) (e : Slack.exn) : M Resp :=
  let failed : M Resp :=
    Slack.raise
      (Slack.OtherError ("All modal navigation methods failed: " +:+ Slack.message e)) in
  let open : M Resp :=
    match trigger body with
    | Some t => Slack.try_except (Slack.await api (Slack.views_open t modal)) (fun _ => failed)
    | None => failed
    end in
  match view_id body with
  | Some v => Slack.try_except (Slack.await api (Slack.views_update v modal)) (fun _ => open)
  | None => open
  end.

Definition handle_modal_navigation (body : Slack.Body) (modal : Modal)
    (navigation_type : string) : M Resp :=
  Slack.try_except (navigate body modal navigation_type)
    (fun e =>
       match e with
       | Slack.ValueError _ => Slack.raise e
       | Slack.OtherError _ =>
           do _ <- Slack.log LOGGER Slack.Error
                     ("Modal navigation failed: " +:+ Slack.message e) ;;
           last_resort body modal e
       end).

End Navigation.

(** The calls a navigation on [body] with [modal] may make: an update of the
    view of the body, an opening or a push on its trigger, a push only when
    the navigation type asks for it. *)
Definition addresses_body {Modal} (body : Slack.Body) (modal : Modal)
    (navigation_type : string) (c : Slack.call Modal) : Prop :=
  match c with
  | Slack.views_update v m => view_id body = Some v /\ m = modal
  | Slack.views_open t m => trigger body = Some t /\ m = modal
  | Slack.views_push t m =>
      navigation_type = "push" /\ trigger body = Some t /\ m = modal
  | Slack.chat_postMessage _ _ => False
  end.

End Nav.

(** ** The top-level error handler of [handlers/core_clean_actions.py] *)

Module Err.

(** The platform error codes for which the user is not told. *)
Definition BENIGN : list string :=
  ["expired_trigger_id"; "invalid_auth"; "push_limit_reached"].

Definition APOLOGY : string :=
  "🤖 Oops! Something went wrong. Please try again or contact support if the issue persists.".

(** [body.get("user", {}).get("id", "unknown")] *)
Definition acting_user (body : Slack.Body) : string :=
  match Slack.user body with
  | Some u => default "unknown" (Slack.user_id u)
  | None => "unknown"
  end.

(** [str.lower] on text of the ASCII range: the letters A to Z move to
    a to z, every other byte stays. *)
Definition lower_char (c : ascii) : ascii :=
  let n := nat_of_ascii c in
  if (65 <=? n)%nat && (n <=? 90)%nat then ascii_of_nat (n + 32) else c.

Fixpoint ascii_lower (s : string) : string :=
  match s with
  | EmptyString => EmptyString
  | String c r => String (lower_char c) (ascii_lower r)
  end.

(** Text of the ASCII range: every byte is below 128. *)
Fixpoint is_ascii (s : string) : bool :=
  match s with
  | EmptyString => true
  | String c r => (nat_of_ascii c <? 128)%nat && is_ascii r
  end.

Section Handler.
Context {Modal Resp C : Type}.
Variable api : Slack.call Modal -> C -> (Resp + Slack.exn) * C.
(** The interpreter's [str.lower], defined on all of Unicode. *)
Variable lower : string -> string.

Local Open Scope slack_scope.

(** [any(x in error_msg.lower() for x in [...])] *)
Definition benign (error_msg : string) : bool :=
  existsb (fun x => Py.contains x (lower error_msg)) BENIGN.

(** [logger_arg] is the logger handed to the handler, by the name it
    logs under, or [None]. *)
Definition global_error_handler (error : Slack.exn) (body : Slack.Body)
    (logger_arg : option string) : Slack.M (C := C) (Modal := Modal) unit :=
  let user_id := acting_user body in
  let error_msg := Slack.message error in
  let error_logger := default Cache.LOGGER logger_arg in
  do _ <- Slack.log error_logger Slack.Error
            ("Unhandled error for user " +:+ user_id +:+ ": " +:+ error_msg) ;;
  if benign error_msg then Slack.ret tt
  else
    Slack.try_except
      (do _ <- Slack.await api (Slack.chat_postMessage user_id APOLOGY) ;; Slack.ret tt)
      (fun _ => Slack.ret tt).

End Handler.

End Err.

(** ** Helpers and the campaign form of [handlers/core_clean_actions.py] *)

Module Actions.

Definition LOGGER : string := "handlers.core_clean_actions".

(** [CONFIG["CHANNELS"]] *)
Definition CHANNEL_EVENTS : string := "#marketing-event-updates-hackathon".
Definition CHANNEL_CAMPAIGNS : string := "#marketing-event-updates-hackathon".

Definition type_names : gmap string string :=
  list_to_map [
    ("physical_event", "Physical Event Campaign");
    ("email_only", "Email-Only Campaign");
    ("email", "Email Campaign");
    ("social", "Social Media Campaign");
    ("content", "Content Marketing Campaign")
  ].

Definition get_campaign_type_display_name (campaign_type : string) : string :=
  default "Campaign" (type_names !! campaign_type).

Section Handlers.
Context {Modal Resp C : Type}.
Variable api : Slack.call Modal -> C -> (Resp + Slack.exn) * C.

Local Open Scope slack_scope.
Local Abbreviation M := (Slack.M (C := C) (Modal := Modal)).

(** [update_modal_view]: the navigation is asked to update the view
    [view_id], on a body that holds nothing else. *)
Definition update_modal_view (view_id : string) (modal : Modal)
    (user_id modal_type : string) : M unit :=
  Slack.try_except
    (do _ <- Nav.handle_modal_navigation api
               {| Slack.trigger_id := None;
                  Slack.view := Some {| Slack.id := Some view_id |};
                  Slack.user := None |}
               modal "update" ;;
     Slack.log LOGGER Slack.Info (modal_type +:+ " modal updated for user " +:+ user_id))
    (fun e =>
       Slack.log LOGGER Slack.Error
         ("Failed to update " +:+ modal_type +:+ " modal for user " +:+ user_id +:+ ": "
            +:+ Slack.message e)).

(** [post_to_channel_safe]: to the channel, and to the user directly when
    the channel refuses. *)
Definition post_to_channel_safe (channel text user_id : string) : M unit :=
  Slack.try_except
    (do _ <- Slack.await api (Slack.chat_postMessage channel text) ;; Slack.ret tt)
    (fun e =>
       do _ <- Slack.log LOGGER Slack.Warning
                 ("Failed to post to " +:+ channel +:+ ", sending DM to " +:+ user_id +:+ ": "
                    +:+ Slack.message e) ;;
       Slack.try_except
         (do _ <- Slack.await api
                    (Slack.chat_postMessage user_id
                       ("*(From " +:+ channel +:+ ")*" +:+ Py.NL +:+ Py.NL +:+ text)) ;;
          Slack.ret tt)
         (fun dm_error =>
            Slack.log LOGGER Slack.Error
              ("Failed to send DM to " +:+ user_id +:+ ": " +:+ Slack.message dm_error))).

(** [campaign_result[key]]: a [KeyError] when the summary has no such key. *)
Definition getitem (value : option Z) (key : string) : M Z :=
  match value with
  | Some v => Slack.ret v
  | None => Slack.raise (Slack.OtherError ("'" +:+ key +:+ "'"))
  end.

(** The dispatcher as the handler awaits it: its summary, after the log
    lines it writes. *)
Definition process_campaign (name goal target campaign_type user_id : string)
    : M Templates.WorkflowResult :=
  let result :=
    Templates.process_campaign_with_workflow_templates name goal target campaign_type user_id in
  do _ <- Slack.log LOGGER Slack.Info
            ("Processing " +:+ campaign_type +:+ " campaign: " +:+ name) ;;
  if String.eqb campaign_type "physical_event" then
    do event_tasks <- getitem (Templates.event_planning_tasks result) "event_planning_tasks" ;;
    do email_tasks <- getitem (Templates.email_campaign_tasks result) "email_campaign_tasks" ;;
    do _ <- Slack.log LOGGER Slack.Info
              ("Created dual parent workflow: " +:+ Py.str event_tasks +:+ " event tasks, "
                 +:+ Py.str email_tasks +:+ " email tasks") ;;
    Slack.ret result
  else
    do total <- getitem (Templates.result_total_tasks result) "total_tasks" ;;
    do _ <- Slack.log LOGGER Slack.Info
              ("Created email-only workflow: " +:+ Py.str total +:+ " tasks") ;;
    Slack.ret result.

(** The opening of the confirmation message. *)
Definition confirmation_head (name goal target campaign_type : string) : string :=
  "✅ *" +:+ get_campaign_type_display_name campaign_type +:+ " Created!*"
    +:+ Py.NL +:+ Py.NL +:+ "*Name:* " +:+ name +:+ Py.NL +:+ "*Goal:* " +:+ goal
    +:+ Py.NL +:+ "*Target:* " +:+ target +:+ Py.NL +:+ Py.NL.

(** [handle_campaign_submission] of the template dispatcher, after the
    acknowledgement, once the form values are read. *)
Definition handle_campaign_submission (user_id name goal target campaign_type : string)
    : M unit :=
  Slack.try_except
    (do campaign_result <- process_campaign name goal target campaign_type user_id ;;
     let message := confirmation_head name goal target campaign_type in
     do message <-
       (if String.eqb campaign_type "physical_event" then
          let message :=
            message +:+ "📋 *Dual Parent Tickets Created:*" +:+ Py.NL
              +:+ "• 🎪 Event Planning Parent (Kate/Karen)" +:+ Py.NL
              +:+ "• 📧 Email Campaign Parent (Jheryl)" +:+ Py.NL +:+ Py.NL in
          do event_tasks <-
            getitem (Templates.event_planning_tasks campaign_result) "event_planning_tasks" ;;
          let message :=
            message +:+ "*Event Planning Tasks:* " +:+ Py.str event_tasks +:+ " tasks" +:+ Py.NL in
          do email_tasks <-
            getitem (Templates.email_campaign_tasks campaign_result) "email_campaign_tasks" ;;
          Slack.ret (message +:+ "*Email Campaign Tasks:* " +:+ Py.str email_tasks +:+ " tasks")
        else
          do total <- getitem (Templates.result_total_tasks campaign_result) "total_tasks" ;;
          Slack.ret (message +:+ "📋 *Email Campaign Workflow Created*" +:+ Py.NL
                       +:+ "*Tasks:* " +:+ Py.str total +:+ " tasks")) ;;
     post_to_channel_safe CHANNEL_CAMPAIGNS message user_id)
    (fun e =>
       do _ <- Slack.log LOGGER Slack.Error ("Error creating campaign: " +:+ Slack.message e) ;;
       post_to_channel_safe user_id "❌ Error creating campaign. Please try again." user_id).

End Handlers.

End Actions.

(** ** The help command of [handlers/core_slash_commands.py] *)

Module Commands.

Definition LOGGER : string := "handlers.core_slash_commands".

Definition SORRY : string :=
  "Sorry, there was an error opening the Campaign Hub. Please try again.".

Section Command.
Context {Modal Resp C : Type}.
Variable api : Slack.call Modal -> C -> (Resp + Slack.exn) * C.

Local Open Scope slack_scope.

(** [handle_help_command], after the acknowledgement: [user_id] and
    [trigger_id] are the keys of those names in the command body, [None]
    when absent; [modal_view] is the campaign hub. *)
Definition handle_help_command (user_id trigger_id : option string) (modal_view : Modal)
    : Slack.M (C := C) (Modal := Modal) unit :=
  let user_id := default "unknown" user_id in
  Slack.try_except
    (do _ <- Slack.log LOGGER Slack.Info
               ("Opening Fetch Campaign Hub for user " +:+ user_id) ;;
     do _ <- Nav.handle_modal_navigation api
               {| Slack.trigger_id := trigger_id; Slack.view := None; Slack.user := None |}
               modal_view "open" ;;
     Slack.log LOGGER Slack.Info ("Successfully opened Campaign Hub for user " +:+ user_id))
    (fun e =>
       do _ <- Slack.log LOGGER Slack.Error
                 ("Error opening Campaign Hub: " +:+ Slack.message e) ;;
       Slack.try_except
         (do _ <- Slack.await api (Slack.chat_postMessage user_id SORRY) ;; Slack.ret tt)
         (fun fallback_error =>
            Slack.log LOGGER Slack.Error
              ("Fallback error: " +:+ Slack.message fallback_error))).

End Command.

End Commands.

(** ** Calendar events of [services/google_calendar_service.py] and the
       reminders of the unified workflow *)

Module Calendar.

(** The event data handed to the service: the keys it reads, [None] when
    absent. *)
Record EventData := {
  data_title : option string;
  data_description : option string;
  data_start_date : option string
}.

Record Event := {
  event_id : string;
  event_url : string;
  title : string;
  start_date : string;
  status : string
}.

Section Service.
Variable hash : string -> Z.

(** [create_campaign_event]: [now] is the clock reading taken for the
    default start date, a week ahead. *)
Definition create_campaign_event (now : Datetime.datetime) (event_data : EventData)
    : option Event :=
  let title := default "Marketing Campaign Event" (data_title event_data) in
  let start_date :=
    match data_start_date event_data with
    | Some d => d
    | None => Datetime.isoformat (Datetime.add now (Datetime.days 7))
    end in
  let event_id := "event_" +:+ Py.str (hash title mod 100000) in
  Some {| event_id := event_id;
          event_url := "https://calendar.google.com/calendar/event?eid=" +:+ event_id;
          title := title;
          start_date := start_date;
          status := "created" |}.

(** The reminder asked for one subtask. *)
Definition reminder_data (event_name : string) (subtask : Monday.Subtask) : EventData :=
  {| data_title :=
       Some ("🔔 Due: " +:+ Monday.name subtask +:+ " - " +:+ event_name);
     data_start_date := Some (Monday.due_date subtask);
     data_description :=
       Some ("Task reminder for " +:+ Monday.assignee subtask +:+ Py.NL +:+ "Estimated: "
               +:+ Monday.estimated_duration subtask) |}.

(** The subtasks that get a reminder: flagged for one, and assigned to
    ["Karen or Kate"]. *)
Definition wants_reminder (subtask : Monday.Subtask) : bool :=
  Monday.calendar_reminder subtask
  && bool_decide (Monday.assignee subtask ∈ ["Karen or Kate"]).

(** Step 4 of [process_unified_campaign_workflow]: the reminder events
    created for the subtasks of the workflow, in order.  [now] gives the
    clock reading of each call of the calendar service. *)
Definition create_reminders (now : nat -> Datetime.datetime) (event_name : string)
    (monday_result : option Monday.UnifiedWorkflow) : list Event :=
  match monday_result with
  | Some w =>
      omap id
        (imap (fun i subtask => create_campaign_event (now i) (reminder_data event_name subtask))
           (List.filter wants_reminder (Monday.subtasks w)))
  | None => []
  end.

End Service.

End Calendar.

(** ** Dividers of [modals/core_modal_system.py] *)

Module Modals.

Section Blocks.
(** A block of a modal, with what [block.get("type")] yields, and the block
    [{"type": "divider"}]. *)
Context {Block : Type}.
Variable block_type : Block -> option string.
Variable divider : Block.

Definition is_section (block : Block) : bool :=
  bool_decide (block_type block = Some "section").

(** [add_dividers_to_modal]: the new value of [modal["blocks"]], from
    [modal.get("blocks", [])]. *)
Definition add_dividers_to_modal (blocks : option (list Block)) : list Block :=
  List.flat_map (fun block => if is_section block then [block; divider] else [block])
    (default [] blocks).

End Blocks.

End Modals.

(** ** Sample inputs *)

Module Samples.

(** A client on which every call fails with the platform's error. *)
Definition failing_client (c : Slack.call string) (s : unit)
    : (string + Slack.exn) * unit :=
  (inr (Slack.OtherError "not_found"), s).

(** A client on which every call succeeds. *)
Definition working_client (c : Slack.call string) (s : unit)
    : (string + Slack.exn) * unit :=
  (inl "ok", s).

(** An event body with a view identifier and no trigger identifier. *)
Definition view_only_body : Slack.Body :=
  {| Slack.trigger_id := None;
     Slack.view := Some {| Slack.id := Some "V0123" |};
     Slack.user := Some {| Slack.user_id := Some "U42" |} |}.

Definition two_deliverables : string := "Banner ad" +:+ Py.NL +:+ "Landing page".

(** Noon of 2025-07-05. *)
Definition noon : Datetime.datetime := Datetime.of_ordinal 739437 12 0 0 0.

(** Three calls for event suggestions 100 and then 301 seconds apart, the
    refresh task of the first completing in between. *)
Definition three_calls : list Cache.occurrence :=
  [Cache.Called 1751716800 "event" 5;
   Cache.Called 1751716900 "event" 5;
   Cache.Refreshed "event" 5 (inl ["Fetch Field Day"]);
   Cache.Called 1751717201 "campaign" 5].

(** A client that refuses its first call and accepts every later one; its
    state counts the calls. *)
Definition flaky_client (c : Slack.call string) (n : nat)
    : (string + Slack.exn) * nat :=
  match n with
  | O => (inr (Slack.OtherError "expired_trigger_id"), S n)
  | S _ => (inl "ok", S n)
  end.

(** An event body with a view identifier and a trigger identifier. *)
Definition full_body : Slack.Body :=
  {| Slack.trigger_id := Some "T77";
     Slack.view := Some {| Slack.id := Some "V0123" |};
     Slack.user := Some {| Slack.user_id := Some "U42" |} |}.

(** An event body with neither. *)
Definition bare_body : Slack.Body :=
  {| Slack.trigger_id := Some ""; Slack.view := Some {| Slack.id := None |};
     Slack.user := None |}.

End Samples.

(** * Properties *)

(** ** The two dispatchers: one or two parent records *)

(** What the two dispatchers return on a concrete submission. *)
Example dispatch_block_party :
  List.map Templates.parent_name
    (Templates.parents
       (Templates.process_campaign_with_workflow_templates
          "Block Party" "awareness" "locals" "physical_event" "U1"))
  = ["Event Planning: Block Party"; "Email Campaign: Block Party"].
Proof. reflexivity. Qed.

Example dispatch_fall_sale :
  List.map Templates.parent_name
    (Templates.parents
       (Templates.process_campaign_with_workflow_templates
          "Fall Sale" "boost signups" "new users" "webinar" "U1"))
  = ["Email Campaign: Fall Sale"].
Proof. reflexivity. Qed.

(** C1. A submission tagged ["physical_event"] yields exactly two parent
    records, the event-planning parent and then the email-campaign parent;
    every other tag, free text included, yields exactly one, the
    email-campaign parent.  This holds for the workflow-template dispatcher,
    whose [total_parents] agrees, and for the ticket-creating branch of the
    submission handler. *)
Theorem dispatch_parent_records (hash : string -> Z)
    (name goal target campaign_type user_id : string) :
  let r := Templates.process_campaign_with_workflow_templates
             name goal target campaign_type user_id in
  let t := fst (Submission.create_tickets hash name goal target campaign_type) in
  length (Templates.parents r)
    = (if decide (campaign_type = "physical_event") then 2%nat else 1%nat)
  /\ Templates.total_parents r = Z.of_nat (length (Templates.parents r))
  /\ List.map Templates.parent_name (Templates.parents r)
     = (if decide (campaign_type = "physical_event")
        then ["Event Planning: " +:+ name; "Email Campaign: " +:+ name]
        else ["Email Campaign: " +:+ name])
  /\ length (Monday.tickets t)
     = (if decide (campaign_type = "physical_event") then 2%nat else 1%nat)
  /\ List.map Monday.ticket_name (Monday.tickets t)
     = (if decide (campaign_type = "physical_event")
        then ["Event Planning: " +:+ name; "Email Campaign: " +:+ name]
        else ["Email Campaign: " +:+ name]).
Proof.
  intros r t. subst r t.
  unfold Templates.process_campaign_with_workflow_templates, Submission.create_tickets.
  destruct (decide (campaign_type = "physical_event")) as [Heq | Hne].
  - apply String.eqb_eq in Heq. rewrite Heq. repeat split; reflexivity.
  - apply String.eqb_neq in Hne. rewrite Hne. repeat split; reflexivity.
Qed.

(** ** The templates *)

(** C2, as stated, fails on the ticket path: the event ticket of a
    physical-event campaign lists 7 tasks, and its email ticket lists 5 tasks
    that are not the 6 of the email-only campaign. *)
Lemma ticket_templates_differ :
  List.map (fun t => length (Monday.ticket_tasks t))
    (Monday.tickets
       (Monday.create_physical_event_campaign (fun _ => 0) "Block Party" "awareness" "locals"))
  = [7%nat; 5%nat]
  /\ (Monday.ticket_tasks <$>
        Monday.email_ticket
          (Monday.create_physical_event_campaign (fun _ => 0) "Block Party" "awareness" "locals"))
     <> (Monday.ticket_tasks <$>
           Monday.email_ticket
             (Monday.create_email_only_campaign (fun _ => 0) "Block Party" "awareness" "locals")).
Proof. split; [reflexivity | discriminate]. Qed.

(** C2, amended.  In the workflow-template dispatcher the event-planning
    template has exactly 5 entries, and the email parent of a physical-event
    campaign carries the very template of an email-only campaign, entry for
    entry.  The tickets of [MondayService] carry task lists of their own: 7
    event tasks and 5 email tasks for a physical event, 6 email tasks for an
    email-only campaign. *)
Theorem template_dispatcher_email_template_shared (hash : string -> Z)
    (name goal target user_id name' goal' target' user_id' : string) :
  length Templates.get_event_planning_workflow_template = 5%nat
  /\ (Templates.tasks <$> Templates.event_planning_parent
        (Templates.create_dual_parent_ticket_workflow name goal target user_id))
     = Some Templates.get_event_planning_workflow_template
  /\ (Templates.tasks <$> Templates.email_campaign_parent
        (Templates.create_dual_parent_ticket_workflow name goal target user_id))
     = (Templates.tasks <$> Templates.email_campaign_parent
          (Templates.create_email_only_workflow name' goal' target' user_id'))
  /\ (Templates.tasks <$> Templates.email_campaign_parent
        (Templates.create_email_only_workflow name' goal' target' user_id'))
     = Some Templates.get_email_campaign_workflow_template
  /\ List.map (fun t => length (Monday.ticket_tasks t))
       (Monday.tickets (Monday.create_physical_event_campaign hash name goal target))
     = [7%nat; 5%nat]
  /\ List.map (fun t => length (Monday.ticket_tasks t))
       (Monday.tickets (Monday.create_email_only_campaign hash name' goal' target'))
     = [6%nat].
Proof. repeat split; reflexivity. Qed.

(** C3. The email-only template has exactly 6 entries, in the order written
    here, each with a non-empty assignee label; the email-only ticket of
    [MondayService] lists 6 tasks in a fixed order under one non-empty
    assignee, whatever the campaign. *)
Theorem email_template_six_entries (hash : string -> Z) (name goal target : string) :
  length Templates.get_email_campaign_workflow_template = 6%nat
  /\ List.map Templates.name Templates.get_email_campaign_workflow_template
     = ["Email Template Build"; "Email Content Creation & Copy";
        "Email Invitation Scheduling"; "Attendee Communication Setup";
        "RSVP Management System"; "Email Campaign QA & Send"]
  /\ Forall (fun t => Templates.assignee t <> "") Templates.get_email_campaign_workflow_template
  /\ List.map Templates.assignee Templates.get_email_campaign_workflow_template
     = List.repeat "Jheryl" 6
  /\ (Monday.ticket_tasks <$>
        Monday.email_ticket (Monday.create_email_only_campaign hash name goal target))
     = Some ["Campaign strategy"; "Audience segmentation"; "Content creation";
             "A/B testing"; "Send automation"; "Performance analysis"]
  /\ (Monday.ticket_assignees <$>
        Monday.email_ticket (Monday.create_email_only_campaign hash name goal target))
     = Some ["jheryl@fetchrewards.com"].
Proof.
  repeat split; try reflexivity.
  repeat constructor; discriminate.
Qed.

(** ** The unified workflow: due dates *)

Lemma Forall_imap_intro {A B} (P : B -> Prop) (f : nat -> A -> B) (l : list A) :
  (forall i x, P (f i x)) -> Forall P (imap f l).
Proof.
  revert f. induction l as [| x l IH]; intros f Hf; cbn [imap]; constructor.
  - apply Hf.
  - apply IH. intros i y. apply Hf.
Qed.

Lemma event_date_is_now_plus_30 (now : Datetime.datetime) (event_dates : string) :
  Monday.event_date now event_dates = now + 30 * Datetime.US_PER_DAY.
Proof. unfold Monday.event_date. destruct (Py.truthy event_dates); reflexivity. Qed.

(** The subtasks are the three standard ones followed by one per deliverable,
    numbered from 3 on. *)
Lemma create_campaign_subtasks_shape (hash : string -> Z) (now : Datetime.datetime)
    (parent_task_id deliverables event_dates : string) :
  let D := Monday.event_date now event_dates in
  Monday._create_campaign_subtasks hash now parent_task_id deliverables event_dates
  = imap (Monday.make_subtask hash parent_task_id) (Monday.standard_subtasks D)
    ++ imap (fun i => Monday.make_subtask hash parent_task_id (3 + i))
         (if Py.truthy deliverables && Py.truthy (Py.strip deliverables)
          then List.map (Monday.custom_subtask D) (Monday.deliverable_items deliverables)
          else []).
Proof.
  intros D. unfold Monday._create_campaign_subtasks. fold D.
  destruct (Py.truthy deliverables && Py.truthy (Py.strip deliverables)).
  - rewrite imap_app. reflexivity.
  - cbn [imap]. rewrite app_nil_r. reflexivity.
Qed.

(** A run of the builder on a noon clock reading of 2025-07-05. *)
Example subtasks_of_5_july :
  List.map Monday.due_date
    (Monday._create_campaign_subtasks (fun _ => 42) Samples.noon
       "task_42" "Banner ad" "2025-09-01")
  = ["2025-07-21T12:00:00"; "2025-07-23T12:00:00"; "2025-07-25T12:00:00";
     "2025-07-28T12:00:00"].
Proof. vm_compute. reflexivity. Qed.

(** C4. With reference date [D], the three standard subtasks (deliverable
    design, creative review, approval review) are due at [D] minus 14, 12 and
    10 days; every subtask after them comes from one deliverable line, is due
    at [D] minus 7 days and depends on the approval-review task. *)
Theorem unified_subtask_due_dates (hash : string -> Z) (now : Datetime.datetime)
    (parent_task_id deliverables event_dates : string) :
  let D := Monday.event_date now event_dates in
  let l := Monday._create_campaign_subtasks hash now parent_task_id deliverables event_dates in
  List.map Monday.name (take 3 l) = ["Deliverable Design"; "Creative Review"; "EDEN Review"]
  /\ List.map Monday.due_date (take 3 l)
     = [Datetime.isoformat (Datetime.sub D (Datetime.days 14));
        Datetime.isoformat (Datetime.sub D (Datetime.days 12));
        Datetime.isoformat (Datetime.sub D (Datetime.days 10))]
  /\ List.map Monday.name (drop 3 l)
     = (if Py.truthy deliverables && Py.truthy (Py.strip deliverables)
        then List.map (fun item => "Custom: " +:+ item) (Monday.deliverable_items deliverables)
        else [])
  /\ Forall (fun s => Monday.due_date s = Datetime.isoformat (Datetime.sub D (Datetime.days 7))
                      /\ Monday.dependencies s = ["EDEN Review"])
       (drop 3 l).
Proof.
  intros D l. subst l. rewrite create_campaign_subtasks_shape. fold D.
  set (custom := if Py.truthy deliverables && Py.truthy (Py.strip deliverables)
                 then List.map (Monday.custom_subtask D) (Monday.deliverable_items deliverables)
                 else []).
  unfold Monday.standard_subtasks. cbn [imap app take drop firstn skipn].
  rewrite !drop_0.
  repeat split.
  - subst custom. destruct (Py.truthy deliverables && Py.truthy (Py.strip deliverables)).
    + rewrite imap_fmap.
      induction (Monday.deliverable_items deliverables) as [| item items IH] using rev_ind.
      * reflexivity.
      * rewrite imap_app, !map_app, IH. reflexivity.
    + reflexivity.
  - subst custom. destruct (Py.truthy deliverables && Py.truthy (Py.strip deliverables)).
    + rewrite imap_fmap. apply Forall_imap_intro. intros i item. split; reflexivity.
    + constructor.
Qed.

(** C10. Two calls of the subtask builder that differ only in the event-date
    string, the clock reading being the same, return the same subtasks, due
    dates included: the reference date is the clock reading plus 30 days
    whatever the string, which is only tested for being empty. *)
Theorem due_dates_ignore_event_dates (hash : string -> Z) (now : Datetime.datetime)
    (parent_task_id deliverables event_dates1 event_dates2 : string) :
  Monday._create_campaign_subtasks hash now parent_task_id deliverables event_dates1
  = Monday._create_campaign_subtasks hash now parent_task_id deliverables event_dates2
  /\ Monday.event_date now event_dates1 = Datetime.add now (Datetime.days 30)
  /\ Monday.event_date now event_dates2 = Datetime.add now (Datetime.days 30)
  /\ List.map Monday.due_date
       (Monday._create_campaign_subtasks hash now parent_task_id deliverables event_dates1)
     = List.map Monday.due_date
         (Monday._create_campaign_subtasks hash now parent_task_id deliverables event_dates2).
Proof.
  assert (Hd : forall ed, Monday.event_date now ed = Datetime.add now (Datetime.days 30)).
  { intros ed. unfold Monday.event_date. destruct (Py.truthy ed); reflexivity. }
  assert (He : Monday._create_campaign_subtasks hash now parent_task_id deliverables event_dates1
               = Monday._create_campaign_subtasks hash now parent_task_id deliverables event_dates2).
  { unfold Monday._create_campaign_subtasks. rewrite !Hd. reflexivity. }
  repeat split; try apply Hd; try exact He. rewrite He. reflexivity.
Qed.

(** ** The unified workflow: two deliverables *)

Lemma two_deliverables_items :
  Monday.deliverable_items Samples.two_deliverables = ["Banner ad"; "Landing page"].
Proof. vm_compute. reflexivity. Qed.

(** The last instant of the library's range. *)
Example datetime_max : Datetime.isoformat Datetime.max = "9999-12-31T23:59:59.999999".
Proof. vm_compute. reflexivity. Qed.

(** The reference date is computed exactly when it is in the range of the
    library, and is then the clock reading plus 30 days. *)
Lemma checked_event_date_in_range (now : Datetime.datetime) (event_dates : string) :
  Datetime.in_range (Datetime.add now (Datetime.days 30)) = true ->
  Monday.checked_event_date now event_dates = Some (Monday.event_date now event_dates).
Proof.
  intros Hr. unfold Monday.checked_event_date, Monday.event_date, Datetime.add_checked.
  rewrite Hr. destruct (Py.truthy event_dates); reflexivity.
Qed.

Lemma checked_event_date_overflow (now : Datetime.datetime) (event_dates : string) :
  Datetime.in_range (Datetime.add now (Datetime.days 30)) = false ->
  Monday.checked_event_date now event_dates = None.
Proof.
  intros Hr. unfold Monday.checked_event_date, Datetime.add_checked.
  rewrite Hr. destruct (Py.truthy event_dates); reflexivity.
Qed.

(** C5, as stated, fails: with the two deliverable lines the parent has 5
    subtasks, the 3 standard ones and 2 more, not 4. *)
Lemma two_deliverables_not_four_subtasks :
  length (Monday._create_campaign_subtasks (fun _ => 0) Samples.noon
            "task_0" Samples.two_deliverables "2025-09-01") <> 4%nat.
Proof. vm_compute. discriminate. Qed.

(** C5, amended.  For a unified-workflow submission whose deliverables are the
    two lines "Banner ad" and "Landing page", exactly 2 ad hoc subtasks, one
    per line, follow the 3 standard subtasks, for a total of 5 subtasks under
    the parent (6 tasks with the parent).  The workflow is created whenever
    the reference date, 30 days after the clock reading, is a date of the
    library. *)
Theorem two_deliverables_five_subtasks (hash : string -> Z)
    (now1 now2 now3 : Datetime.datetime) (campaign_data : gmap string string) :
  campaign_data !! "deliverables" = Some Samples.two_deliverables ->
  Datetime.in_range (Datetime.add now2 (Datetime.days 30)) = true ->
  exists w,
    Monday.create_unified_campaign_workflow hash now1 now2 now3 campaign_data = Some w
    /\ List.map Monday.name (Monday.subtasks w)
       = ["Deliverable Design"; "Creative Review"; "EDEN Review";
          "Custom: Banner ad"; "Custom: Landing page"]
    /\ length (Monday.subtasks w) = 5%nat
    /\ length (drop 3 (Monday.subtasks w)) = 2%nat
    /\ Monday.total_tasks w = 6.
Proof.
  intros Hd Hr. unfold Monday.create_unified_campaign_workflow.
  rewrite (checked_event_date_in_range _ _ Hr).
  replace (Monday.get campaign_data "deliverables" "") with Samples.two_deliverables
    by (unfold Monday.get; rewrite Hd; reflexivity).
  eexists. split; [reflexivity |].
  cbn [Monday.subtasks Monday.total_tasks].
  assert (Hl : forall pid ed,
             List.map Monday.name
               (Monday._create_campaign_subtasks hash now2 pid Samples.two_deliverables ed)
             = ["Deliverable Design"; "Creative Review"; "EDEN Review";
                "Custom: Banner ad"; "Custom: Landing page"]).
  { intros pid ed. rewrite create_campaign_subtasks_shape.
    replace (Py.truthy Samples.two_deliverables && Py.truthy (Py.strip Samples.two_deliverables)) with true
      by (vm_compute; reflexivity).
    rewrite two_deliverables_items. reflexivity. }
  assert (Hn : forall pid ed,
             length (Monday._create_campaign_subtasks hash now2 pid Samples.two_deliverables ed) = 5%nat).
  { intros pid ed. rewrite <- (length_map Monday.name), Hl. reflexivity. }
  split; [apply Hl |]. split; [apply Hn |]. split.
  - rewrite length_drop, Hn. reflexivity.
  - unfold Py.len. rewrite Hn. reflexivity.
Qed.

(** The amended C5 on a concrete submission. *)
Lemma two_deliverables_five_subtasks_witness :
  exists w,
    Monday.create_unified_campaign_workflow (fun _ => 0)
      Samples.noon (Datetime.of_ordinal 739437 12 0 0 1)
      (Datetime.of_ordinal 739437 12 0 0 2)
      (<["deliverables" := Samples.two_deliverables]> (<["event_name" := "Fall Sale"]> ∅)) = Some w
    /\ List.map Monday.name (Monday.subtasks w)
       = ["Deliverable Design"; "Creative Review"; "EDEN Review";
          "Custom: Banner ad"; "Custom: Landing page"]
    /\ length (Monday.subtasks w) = 5%nat
    /\ length (drop 3 (Monday.subtasks w)) = 2%nat
    /\ Monday.total_tasks w = 6.
Proof.
  apply (two_deliverables_five_subtasks (fun _ => 0)).
  - vm_compute. reflexivity.
  - vm_compute. reflexivity.
Defined.

(** ** Fallback suggestions: cycling a fixed list *)

Section Cycling.
Context {A : Type}.
Implicit Types l : list A.

Lemma length_concat_repeat l (k : nat) :
  length (List.concat (List.repeat l k)) = (k * length l)%nat.
Proof.
  induction k as [| k IH]; [reflexivity |].
  cbn [List.repeat List.concat]. rewrite length_app, IH. reflexivity.
Qed.

Lemma lookup_concat_repeat l (k i : nat) :
  (i < k * length l)%nat ->
  List.concat (List.repeat l k) !! i = l !! (i mod length l)%nat.
Proof.
  revert i. induction k as [| k IH]; intros i Hi; [lia |].
  cbn [List.repeat List.concat].
  destruct (Nat.lt_ge_cases i (length l)) as [Hlt | Hge].
  - rewrite lookup_app_l by exact Hlt. rewrite Nat.mod_small by exact Hlt. reflexivity.
  - rewrite lookup_app_r by exact Hge. rewrite IH by lia.
    replace i with ((i - length l) + 1 * length l)%nat at 2 by lia.
    rewrite Nat.Div0.mod_add. reflexivity.
Qed.

(** [(l * ((n // len(l)) + 1))[:n]] has [n] elements, the elements of [l]
    taken round and round. *)
Lemma cycle_spec l (n : Z) :
  l <> [] -> 0 <= n ->
  length (Py.slice_to (Py.repeat_list l (n / Py.len l + 1)) n) = Z.to_nat n
  /\ forall i : nat, (i < Z.to_nat n)%nat ->
       Py.slice_to (Py.repeat_list l (n / Py.len l + 1)) n !! i
       = l !! (i mod length l)%nat.
Proof.
  intros Hl Hn. unfold Py.slice_to, Py.repeat_list, Py.len.
  assert (Hpos : (0 < length l)%nat) by (destruct l; [congruence | cbn; lia]).
  replace (0 <=? n) with true by (symmetry; apply Z.leb_le; exact Hn).
  set (len := Z.of_nat (length l)).
  assert (Hlen : 0 < len) by (subst len; lia).
  assert (Hk : (Z.to_nat n < Z.to_nat (n / len + 1) * length l)%nat).
  { pose proof (Z.div_mod n len ltac:(lia)) as Hdm.
    pose proof (Z.mod_pos_bound n len Hlen) as Hmb.
    pose proof (Z.div_pos n len Hn Hlen) as Hq.
    apply Nat2Z.inj_lt. rewrite Nat2Z.inj_mul, !Z2Nat.id by lia.
    fold len. nia. }
  split.
  - rewrite length_take, length_concat_repeat. lia.
  - intros i Hi. rewrite lookup_take_lt by exact Hi.
    apply lookup_concat_repeat. lia.
Qed.

End Cycling.

Lemma AI_fallback_list_nonempty (campaign_type : string) :
  AI.fallback_list campaign_type <> [].
Proof.
  unfold AI.fallback_list.
  destruct (AI.fallbacks !! campaign_type) as [l |] eqn:E; cbn [default].
  - apply elem_of_list_to_map_2 in E.
    repeat (apply elem_of_cons in E as [E | E]; [injection E as _ ->; discriminate |]).
    apply elem_of_nil in E. destruct E.
  - vm_compute. discriminate.
Qed.

Lemma Cache_fallback_list_nonempty (suggestion_type : string) :
  Cache.fallback_list suggestion_type <> [].
Proof.
  unfold Cache.fallback_list.
  destruct (Cache.fallbacks !! suggestion_type) as [l |] eqn:E; cbn [default].
  - apply elem_of_list_to_map_2 in E.
    repeat (apply elem_of_cons in E as [E | E]; [injection E as _ ->; discriminate |]).
    apply elem_of_nil in E. destruct E.
  - vm_compute. discriminate.
Qed.

(** Seven suggestions from a list of five: the list, then its first two. *)
Example seven_social_suggestions :
  AI.generate_campaign_suggestions None None "social" 7
  = ["#ScanToWin Challenge"; "Receipt Art Contest"; "Fetch Friends Referral Drive";
     "Store Partnership Announcements"; "User Success Story Features";
     "#ScanToWin Challenge"; "Receipt Art Contest"].
Proof. vm_compute. reflexivity. Qed.

(** A negative count yields no suggestion at all. *)
Example negative_count_is_empty :
  AI.generate_campaign_suggestions None None "email" (-1) = []
  /\ Cache.get_fallback_suggestions "campaign" (-7) = [].
Proof. split; vm_compute; reflexivity. Qed.

(** C6. With the generative-text service not configured, suggestion
    generation for a domain tag returns exactly [count] items, the item at
    position [i] being the one at position [i] modulo the list's length in
    the fallback list: the tag's own hard-coded list when the tag is a key of
    the fallback table (and the table's default list otherwise).  This holds
    for the service's own fallback and for the handlers' emergency fallback. *)
Theorem fallback_suggestions_cycle (completion : option string)
    (tag : string) (count : Z) :
  0 <= count ->
  (length (AI.generate_campaign_suggestions None completion tag count) = Z.to_nat count
   /\ (forall i : nat, (i < Z.to_nat count)%nat ->
         AI.generate_campaign_suggestions None completion tag count !! i
         = AI.fallback_list tag !! (i mod length (AI.fallback_list tag))%nat)
   /\ (forall l, AI.fallbacks !! tag = Some l -> AI.fallback_list tag = l))
  /\ (length (Cache.get_fallback_suggestions tag count) = Z.to_nat count
      /\ (forall i : nat, (i < Z.to_nat count)%nat ->
            Cache.get_fallback_suggestions tag count !! i
            = Cache.fallback_list tag !! (i mod length (Cache.fallback_list tag))%nat)
      /\ (forall l, Cache.fallbacks !! tag = Some l -> Cache.fallback_list tag = l)).
Proof.
  intros Hc.
  pose proof (cycle_spec (AI.fallback_list tag) count
                (AI_fallback_list_nonempty tag) Hc) as [Hlen1 Hnth1].
  pose proof (cycle_spec (Cache.fallback_list tag) count
                (Cache_fallback_list_nonempty tag) Hc) as [Hlen2 Hnth2].
  split; (split; [| split]).
  - exact Hlen1.
  - exact Hnth1.
  - intros l Hl. unfold AI.fallback_list. rewrite Hl. reflexivity.
  - exact Hlen2.
  - exact Hnth2.
  - intros l Hl. unfold Cache.fallback_list. rewrite Hl. reflexivity.
Qed.

(** C6 at the tag ["event"] and a count of 7, above both list lengths. *)
Lemma fallback_suggestions_cycle_witness :
  (length (AI.generate_campaign_suggestions None None "event" 7) = Z.to_nat 7
   /\ (forall i : nat, (i < Z.to_nat 7)%nat ->
         AI.generate_campaign_suggestions None None "event" 7 !! i
         = AI.fallback_list "event" !! (i mod length (AI.fallback_list "event"))%nat)
   /\ (forall l, AI.fallbacks !! "event" = Some l -> AI.fallback_list "event" = l))
  /\ (length (Cache.get_fallback_suggestions "event" 7) = Z.to_nat 7
      /\ (forall i : nat, (i < Z.to_nat 7)%nat ->
            Cache.get_fallback_suggestions "event" 7 !! i
            = Cache.fallback_list "event" !! (i mod length (Cache.fallback_list "event"))%nat)
      /\ (forall l, Cache.fallbacks !! "event" = Some l -> Cache.fallback_list "event" = l)).
Proof.
  apply (fallback_suggestions_cycle None "event" 7). lia.
Defined.

(** ** Modal navigation: a push without a trigger identifier *)

(** C7, as stated, fails: the body has a view identifier and no trigger
    identifier, the push falls back to [views_update] on that identifier, and
    when the platform refuses the update, at first and at the retry of the
    last resort, the navigation raises. *)
Lemma push_without_trigger_may_raise :
  Nav.view_id Samples.view_only_body = Some "V0123"
  /\ Nav.trigger Samples.view_only_body = None
  /\ Nav.handle_modal_navigation Samples.failing_client
       Samples.view_only_body "campaign_modal" "push" tt
     = (inr (Slack.OtherError "All modal navigation methods failed: not_found"), tt,
        [Slack.Log Nav.LOGGER Slack.Warning
           "Cannot push modal: no trigger_id found, falling back to update";
         Slack.Api (Slack.views_update "V0123" "campaign_modal");
         Slack.Log Nav.LOGGER Slack.Error "Modal navigation failed: not_found";
         Slack.Api (Slack.views_update "V0123" "campaign_modal")]).
Proof. repeat split. Qed.

(** C7, amended.  For every event body with a view identifier and no trigger
    identifier, a navigation request of type ["push"] resolves to a
    [views_update] call on that view identifier, and to no other call.  It
    returns the response of that call when it succeeds; after a failure other
    than a [ValueError] the call is made once more, and its response is
    returned when that succeeds.  The navigation raises only when the
    platform refuses the update: the [ValueError] of the first call, or the
    final exception after two refusals. *)
Theorem push_without_trigger_updates {Modal Resp C : Type}
    (api : Slack.call Modal -> C -> (Resp + Slack.exn) * C) (s : C)
    (body : Slack.Body) (modal : Modal) (v : string) :
  Nav.view_id body = Some v ->
  Nav.trigger body = None ->
  let u := Slack.views_update v modal in
  let '(r, s', t) := Nav.handle_modal_navigation api body modal "push" s in
  match api u s with
  | (inl resp, s1) => r = inl resp /\ s' = s1 /\ Slack.calls t = [u]
  | (inr (Slack.ValueError m), s1) =>
      r = inr (Slack.ValueError m) /\ s' = s1 /\ Slack.calls t = [u]
  | (inr (Slack.OtherError m), s1) =>
      match api u s1 with
      | (inl resp, s2) => r = inl resp /\ s' = s2 /\ Slack.calls t = [u; u]
      | (inr _, s2) =>
          r = inr (Slack.OtherError ("All modal navigation methods failed: " +:+ m))
          /\ s' = s2 /\ Slack.calls t = [u; u]
      end
  end.
Proof.
  intros Hv Ht u.
  unfold Nav.handle_modal_navigation, Nav.navigate, Nav.last_resort, Nav.detect.
  cbn [String.eqb Ascii.eqb Bool.eqb]. rewrite Ht, Hv. fold u.
  unfold Slack.try_except, Slack.bind, Slack.await, Slack.log, Slack.raise.
  destruct (api u s) as [[resp | [m | m]] s1] eqn:E1.
  - repeat split.
  - repeat split.
  - cbn [Slack.message]. destruct (api u s1) as [[resp | e] s2] eqn:E2; repeat split.
Qed.

(** The amended C7 on a body with view ["V0123"] and a client that accepts
    the update. *)
Lemma push_without_trigger_updates_witness :
  Nav.view_id Samples.view_only_body = Some "V0123"
  /\ Nav.trigger Samples.view_only_body = None
  /\ (let u := Slack.views_update "V0123" "campaign_modal" in
      let '(r, s', t) := Nav.handle_modal_navigation Samples.working_client
                           Samples.view_only_body "campaign_modal" "push" tt in
      match Samples.working_client u tt with
      | (inl resp, s1) => r = inl resp /\ s' = s1 /\ Slack.calls t = [u]
      | (inr (Slack.ValueError m), s1) =>
          r = inr (Slack.ValueError m) /\ s' = s1 /\ Slack.calls t = [u]
      | (inr (Slack.OtherError m), s1) =>
          match Samples.working_client u s1 with
          | (inl resp, s2) => r = inl resp /\ s' = s2 /\ Slack.calls t = [u; u]
          | (inr _, s2) =>
              r = inr (Slack.OtherError ("All modal navigation methods failed: " +:+ m))
              /\ s' = s2 /\ Slack.calls t = [u; u]
          end
      end).
Proof.
  split; [reflexivity |]. split; [reflexivity |].
  apply (push_without_trigger_updates Samples.working_client tt
           Samples.view_only_body "campaign_modal" "V0123"); reflexivity.
Defined.

(** The same run, evaluated. *)
Example push_without_trigger_run :
  Nav.handle_modal_navigation Samples.working_client
    Samples.view_only_body "campaign_modal" "push" tt
  = (inl "ok", tt,
     [Slack.Log Nav.LOGGER Slack.Warning
        "Cannot push modal: no trigger_id found, falling back to update";
      Slack.Api (Slack.views_update "V0123" "campaign_modal")]).
Proof. vm_compute. reflexivity. Qed.

(** ** The top-level error handler *)

Lemma strip_prefix_lower (x s r : string) :
  Py.strip_prefix x s = Some r ->
  Py.strip_prefix (Err.ascii_lower x) (Err.ascii_lower s) = Some (Err.ascii_lower r).
Proof.
  revert s. induction x as [| a x IH]; intros s H.
  - cbn in H |- *. congruence.
  - destruct s as [| b s]; cbn in H |- *; [discriminate |].
    destruct (Ascii.eqb a b) eqn:Eab; [| discriminate].
    apply Ascii.eqb_eq in Eab. subst b. rewrite Ascii.eqb_refl. apply IH, H.
Qed.

(** A message that holds a code, in whatever letter case, holds it once put
    in lower case. *)
Lemma contains_lower (x s : string) :
  Py.contains x s = true -> Py.contains (Err.ascii_lower x) (Err.ascii_lower s) = true.
Proof.
  induction s as [| b s IH]; intros H.
  - cbn in H |- *. destruct (Py.strip_prefix x "") as [r |] eqn:E; [| discriminate].
    apply strip_prefix_lower in E. cbn in E. cbn. rewrite E. reflexivity.
  - cbn [Py.contains] in H.
    destruct (Py.strip_prefix x (String b s)) as [r |] eqn:E.
    + apply strip_prefix_lower in E. cbn [Err.ascii_lower] in E.
      cbn [Py.contains Err.ascii_lower]. rewrite E. reflexivity.
    + cbn [Py.contains Err.ascii_lower].
      destruct (Py.strip_prefix (Err.ascii_lower x)
                  (String (Err.lower_char b) (Err.ascii_lower s))); [reflexivity |].
      apply IH, H.
Qed.

(** A refused push, beyond the limit of stacked views, is logged and not
    reported; an error of the handler's own is reported. *)
Example push_limit_is_silent :
  Err.global_error_handler Samples.working_client Err.ascii_lower
    (Slack.OtherError "The request failed: PUSH_LIMIT_REACHED") Samples.view_only_body None tt
  = (inl tt, tt,
     [Slack.Log "handlers.core_clean_actions" Slack.Error
        "Unhandled error for user U42: The request failed: PUSH_LIMIT_REACHED"]).
Proof. vm_compute. reflexivity. Qed.

Example key_error_is_reported :
  Slack.calls
    (snd (Err.global_error_handler Samples.failing_client Err.ascii_lower
            (Slack.OtherError "'view'") Samples.view_only_body (Some "bolt") tt))
  = [Slack.chat_postMessage "U42" Err.APOLOGY].
Proof. vm_compute. reflexivity. Qed.

(** C9, as stated, fails for the rate limit: the platform refuses a call
    over the rate limit with the code [ratelimited], which is not one of the
    three codes the handler passes over, so the user gets the apology. *)
Lemma rate_limited_error_is_reported :
  Err.global_error_handler Samples.working_client Err.ascii_lower
    (Slack.OtherError
       "The request to the Slack API failed. The server responded with: {'ok': False, 'error': 'ratelimited'}")
    Samples.view_only_body None tt
  = (inl tt, tt,
     [Slack.Log "handlers.core_clean_actions" Slack.Error
        "Unhandled error for user U42: The request to the Slack API failed. The server responded with: {'ok': False, 'error': 'ratelimited'}";
      Slack.Api (Slack.chat_postMessage "U42" Err.APOLOGY)]).
Proof. vm_compute. reflexivity. Qed.

(** C9, amended.  The top-level error handler never raises.  It first logs
    the error, at level error, in a line that names the acting user's
    identifier ("unknown" when the body has none).  When the error message,
    put in lower case, contains [expired_trigger_id], [invalid_auth] or
    [push_limit_reached], it calls the platform not at all and logs nothing
    more; otherwise it posts the generic apology to the user, and that is its
    only call, whose failure it passes over.  On a message of the ASCII
    range, where [str.lower] is the lowering of the letters A to Z, a message
    that holds one of the three codes in whatever letter case is passed
    over. *)
Theorem global_error_handler_effects {Modal Resp C : Type}
    (api : Slack.call Modal -> C -> (Resp + Slack.exn) * C) (lower : string -> string)
    (error : Slack.exn) (body : Slack.Body) (logger_arg : option string) (s : C) :
  let error_msg := Slack.message error in
  let suppressed :=
    Py.contains "expired_trigger_id" (lower error_msg)
    || Py.contains "invalid_auth" (lower error_msg)
    || Py.contains "push_limit_reached" (lower error_msg) in
  let line :=
    Slack.Log (default Cache.LOGGER logger_arg) Slack.Error
      ("Unhandled error for user " +:+ Err.acting_user body +:+ ": " +:+ error_msg) in
  let '(r, s', t) := Err.global_error_handler api lower error body logger_arg s in
  r = inl tt
  /\ head t = Some line
  /\ Slack.calls t
     = (if suppressed then []
        else [Slack.chat_postMessage (Err.acting_user body) Err.APOLOGY])
  /\ (suppressed = true -> s' = s /\ t = [line])
  /\ (suppressed = false ->
      t = [line; Slack.Api (Slack.chat_postMessage (Err.acting_user body) Err.APOLOGY)])
  /\ (forall u, Slack.user body = Some u -> forall i, Slack.user_id u = Some i ->
        Err.acting_user body = i)
  /\ ((Slack.user body = None \/ exists u, Slack.user body = Some u /\ Slack.user_id u = None) ->
      Err.acting_user body = "unknown")
  /\ ((forall m, Err.is_ascii m = true -> lower m = Err.ascii_lower m) ->
      Err.is_ascii error_msg = true ->
      forall code written,
        In code ["expired_trigger_id"; "invalid_auth"; "push_limit_reached"] ->
        Err.ascii_lower written = code ->
        Py.contains written error_msg = true ->
        Slack.calls t = [] /\ s' = s).
Proof.
  intros error_msg suppressed line.
  assert (Hs : Err.benign lower error_msg = suppressed).
  { unfold Err.benign, suppressed, Err.BENIGN. cbn [existsb]. rewrite orb_false_r, orb_assoc.
    reflexivity. }
  assert (Hu : forall u, Slack.user body = Some u -> forall i, Slack.user_id u = Some i ->
                 Err.acting_user body = i).
  { intros u Hu i Hi. unfold Err.acting_user. rewrite Hu, Hi. reflexivity. }
  assert (Hn : (Slack.user body = None
                \/ exists u, Slack.user body = Some u /\ Slack.user_id u = None) ->
               Err.acting_user body = "unknown").
  { unfold Err.acting_user. intros [Hb | [u [Hb Hi]]]; rewrite Hb; [| rewrite Hi]; reflexivity. }
  assert (Hl : (forall m, Err.is_ascii m = true -> lower m = Err.ascii_lower m) ->
               Err.is_ascii error_msg = true ->
               forall code written,
                 In code ["expired_trigger_id"; "invalid_auth"; "push_limit_reached"] ->
                 Err.ascii_lower written = code ->
                 Py.contains written error_msg = true -> suppressed = true).
  { intros Hlow Ha code written Hin Hw Hc. apply contains_lower in Hc.
    rewrite Hw, <- (Hlow _ Ha) in Hc. unfold suppressed.
    destruct Hin as [<- | [<- | [<- | []]]]; rewrite Hc;
      rewrite ?orb_true_r; reflexivity. }
  unfold Err.global_error_handler, Slack.bind, Slack.try_except, Slack.await, Slack.log, Slack.ret.
  fold error_msg. rewrite Hs. fold line.
  destruct suppressed eqn:E.
  - repeat split; auto; discriminate.
  - destruct (api (Slack.chat_postMessage (Err.acting_user body) Err.APOLOGY) s)
      as [[resp | e] s1] eqn:Ea.
    + repeat split; auto; try discriminate; exfalso; eauto using diff_false_true.
    + repeat split; auto; try discriminate; exfalso; eauto using diff_false_true.
Qed.

(** The amended C9 on a refused push whose code is written in capitals. *)
Lemma global_error_handler_effects_witness :
  Slack.calls
    (snd (Err.global_error_handler Samples.failing_client Err.ascii_lower
            (Slack.OtherError "The request failed: PUSH_LIMIT_REACHED")
            Samples.view_only_body None tt))
  = [].
Proof.
  pose proof (global_error_handler_effects Samples.failing_client Err.ascii_lower
                (Slack.OtherError "The request failed: PUSH_LIMIT_REACHED")
                Samples.view_only_body None tt) as H.
  cbv zeta in H.
  destruct (Err.global_error_handler Samples.failing_client Err.ascii_lower
              (Slack.OtherError "The request failed: PUSH_LIMIT_REACHED")
              Samples.view_only_body None tt) as [[r s'] t].
  destruct H as (_ & _ & _ & _ & _ & _ & _ & H). cbn [snd].
  apply (H (fun m _ => eq_refl) eq_refl "push_limit_reached" "PUSH_LIMIT_REACHED").
  - right. right. left. reflexivity.
  - reflexivity.
  - vm_compute. reflexivity.
Defined.

(** With the lowering of the ASCII range, a message that literally contains
    one of the codes is among those not reported. *)
Lemma literal_code_is_benign (error_msg code : string) :
  In code Err.BENIGN -> Py.contains code error_msg = true ->
  Err.benign Err.ascii_lower error_msg = true.
Proof.
  intros Hin Hc. unfold Err.benign. apply existsb_exists. exists code. split; [exact Hin |].
  apply contains_lower in Hc.
  replace (Err.ascii_lower code) with code in Hc; [exact Hc |].
  cbn in Hin. destruct Hin as [<- | [<- | [<- | []]]]; reflexivity.
Qed.

(** ** The suggestion cache: throttled background refresh *)

Lemma Qgtb_true (a b : Q) : Cache.Qgtb a b = true <-> (b < a)%Q.
Proof.
  unfold Cache.Qgtb. rewrite negb_true_iff, <- not_true_iff_false, Qle_bool_iff.
  split; [apply Qnot_le_lt | apply Qlt_not_le].
Qed.

Lemma cache_age_stamp (cache : gmap string Cache.value) (now : Q) :
  exists age, Cache.cache_age (<["last_refresh" := Cache.VTime now]> cache) = Some age
              /\ (age == now)%Q.
Proof.
  unfold Cache.cache_age. rewrite lookup_insert_eq.
  destruct (Qeq_bool now 0) eqn:E.
  - exists 0%Q. split; [reflexivity |]. apply Qeq_bool_iff in E. symmetry. exact E.
  - exists now. split; reflexivity.
Qed.

Lemma age_from_stamp (cache : gmap string Cache.value) (now lo : Q) :
  (lo <= now)%Q -> Cache.age_from (<["last_refresh" := Cache.VTime now]> cache) lo.
Proof.
  intros Hlo. unfold Cache.age_from.
  destruct (cache_age_stamp cache now) as (age & -> & Heq). lra.
Qed.

Lemma age_from_store (cache : gmap string Cache.value) (k x : string) (l : list string) (lo : Q) :
  Cache.age_from cache lo -> Cache.age_from (<[k := Cache.VList (x :: l)]> cache) lo.
Proof.
  intros H. unfold Cache.age_from, Cache.cache_age in *.
  destruct (decide (k = "last_refresh")) as [-> | Hne].
  - rewrite lookup_insert_eq. exact I.
  - rewrite lookup_insert_ne by exact Hne. exact H.
Qed.

(** One call: when a refresh task is spawned, and what the call leaves. *)
Lemma generate_ai_suggestions_spawn (cache : gmap string Cache.value) (now : Q)
    (suggestion_type : string) (count : Z) :
  let '(suggestions, cache', effects) :=
    Cache.generate_ai_suggestions cache now suggestion_type count in
  (existsb Cache.is_refresh_spawn effects = true
   <-> exists x l age,
         cache !! suggestion_type = Some (Cache.VList (x :: l))
         /\ Cache.cache_age cache = Some age /\ (300 < now - age)%Q)
  /\ (existsb Cache.is_refresh_spawn effects = true ->
      effects = [Cache.Spawn (Cache.refresh_ai_cache_task suggestion_type count)]
      /\ cache' = <["last_refresh" := Cache.VTime now]> cache)
  /\ (existsb Cache.is_refresh_spawn effects = false -> cache' = cache)
  /\ existsb Cache.is_await effects = false.
Proof.
  unfold Cache.generate_ai_suggestions.
  destruct (cache !! suggestion_type) as [[[| x l] | | t] |] eqn:Ev; cbn [Cache.truthy].
  - cbn. repeat split; try discriminate. intros (? & ? & ? & ? & _); discriminate.
  - destruct (Cache.cache_age cache) as [age |] eqn:Ea.
    + destruct (Cache.Qgtb (now - age) 300) eqn:Eg.
      * cbn. repeat split; try discriminate.
        intros _. exists x, l, age. repeat split. apply Qgtb_true, Eg.
      * cbn. repeat split; try discriminate.
        intros (? & ? & age' & _ & Ha & Hlt). injection Ha as <-.
        apply Qgtb_true in Hlt. congruence.
    + cbn. repeat split; try discriminate. intros (? & ? & ? & _ & ? & _); discriminate.
  - cbn. repeat split; try discriminate. intros (? & ? & ? & ? & _); discriminate.
  - destruct (negb (Qeq_bool t 0)); cbn; repeat split; try discriminate;
      intros (? & ? & ? & ? & _); discriminate.
  - cbn. repeat split; try discriminate. intros (? & ? & ? & ? & _); discriminate.
Qed.

(** Every refresh spawned from a cache whose age is at least [lo], at clock
    readings that are at least [lo], comes more than 300 seconds after [lo]. *)
Lemma refresh_times_after (os : list Cache.occurrence) :
  forall (cache : gmap string Cache.value) (lo : Q),
    Cache.age_from cache lo ->
    Forall (Qle lo) (omap Cache.occurrence_time os) ->
    Forall (fun t => (300 < t - lo)%Q) (Cache.refresh_times cache os).
Proof.
  induction os as [| o os IH]; intros cache lo Hage Hlo; [constructor |].
  destruct o as [now ty n | ty n answer | now ty n answer]; cbn [Cache.refresh_times Cache.advance].
  - cbn in Hlo. apply Forall_cons in Hlo as [Hnow Hrest].
    pose proof (generate_ai_suggestions_spawn cache now ty n) as Hs.
    destruct (Cache.generate_ai_suggestions cache now ty n) as [[sg cache'] eff].
    destruct Hs as (Hiff & Hyes & Hno & _).
    destruct (existsb Cache.is_refresh_spawn eff) eqn:E.
    + destruct (proj1 Hiff eq_refl) as (x & l & age & _ & Ha & Hlt).
      destruct (Hyes eq_refl) as [_ ->].
      unfold Cache.age_from in Hage. rewrite Ha in Hage.
      constructor; [lra |]. apply IH; [apply age_from_stamp, Hnow | exact Hrest].
    + rewrite (Hno eq_refl). apply IH; assumption.
  - cbn in Hlo. unfold Cache.refresh_ai_cache.
    destruct answer as [[| x l] |]; apply IH; auto using age_from_store.
  - cbn in Hlo. apply Forall_cons in Hlo as [Hnow Hrest].
    unfold Cache.populate_cache_background.
    destruct answer as [[| x l] |]; apply IH; auto using age_from_stamp.
Qed.

(** With a clock that never goes back, any two refreshes are spawned more
    than 300 seconds apart. *)
Lemma refresh_times_apart (os : list Cache.occurrence) :
  forall cache : gmap string Cache.value,
    Cache.clock_monotone os ->
    ForallOrdPairs (fun t1 t2 => (300 < t2 - t1)%Q) (Cache.refresh_times cache os).
Proof.
  unfold Cache.clock_monotone.
  induction os as [| o os IH]; intros cache Hs; [constructor |].
  destruct o as [now ty n | ty n answer | now ty n answer]; cbn [Cache.refresh_times Cache.advance].
  - cbn in Hs. apply StronglySorted_inv in Hs as [Hs Hnow].
    pose proof (generate_ai_suggestions_spawn cache now ty n) as Hg.
    destruct (Cache.generate_ai_suggestions cache now ty n) as [[sg cache'] eff].
    destruct Hg as (_ & Hyes & _ & _).
    destruct (existsb Cache.is_refresh_spawn eff) eqn:E.
    + destruct (Hyes eq_refl) as [_ ->]. constructor.
      * apply refresh_times_after; [| exact Hnow]. apply age_from_stamp. lra.
      * apply IH, Hs.
    + apply IH, Hs.
  - cbn in Hs. destruct (Cache.refresh_ai_cache cache ty n answer). apply IH, Hs.
  - cbn in Hs. apply StronglySorted_inv in Hs as [Hs _].
    destruct (Cache.populate_cache_background cache now ty n answer). apply IH, Hs.
Qed.

Lemma ForallOrdPairs_lookup {A} (R : A -> A -> Prop) (l : list A) :
  ForallOrdPairs R l ->
  forall (i j : nat) (x y : A), (i < j)%nat -> l !! i = Some x -> l !! j = Some y -> R x y.
Proof.
  induction 1 as [| a l Ha _ IH]; intros i j x y Hij Hi Hj.
  - rewrite lookup_nil in Hi. discriminate.
  - destruct j as [| j]; [lia |]. destruct i as [| i].
    + cbn in Hi, Hj. injection Hi as <-.
      eapply Forall_lookup_1; [exact Ha | exact Hj].
    + cbn in Hi, Hj. apply (IH i j); [lia | assumption ..].
Qed.

(** The sample calls: the first spawns a refresh, the second, 100 seconds
    later, does not, the third, 401 seconds after the first, does. *)
Example three_calls_two_refreshes :
  Cache.refresh_times Cache.SUGGESTION_CACHE Samples.three_calls
  = [1751716800%Q; 1751717201%Q].
Proof. vm_compute. reflexivity. Qed.

(** A suggestion type with no cache entry starts a population task at every
    call, whatever the last-refresh timestamp: the throttle is that of the
    refresh task alone. *)
Example population_is_not_throttled :
  snd (Cache.generate_ai_suggestions
         (<["last_refresh" := Cache.VTime 1751716800]> Cache.SUGGESTION_CACHE)
         1751716801 "email" 5)
  = [Cache.Spawn (Cache.populate_cache_background_task "email" 5)].
Proof. vm_compute. reflexivity. Qed.

(** C8. A call of [generate_ai_suggestions] spawns a refresh task exactly
    when the requested type has a non-empty cached list and more than 300
    seconds separate the clock reading from the recorded last-refresh
    timestamp (counted as 0 when none is recorded); it then spawns that one
    task and records the clock reading as the new timestamp, and otherwise
    leaves the cache as it is; it never suspends on a task it spawned.  Hence,
    with a clock that never goes back, over any course of calls and task
    completions two refresh tasks are spawned more than 300 seconds apart. *)
Theorem refresh_throttled (cache : gmap string Cache.value) (now : Q)
    (suggestion_type : string) (count : Z) (os : list Cache.occurrence) :
  Cache.clock_monotone os ->
  (let '(suggestions, cache', effects) :=
     Cache.generate_ai_suggestions cache now suggestion_type count in
   (existsb Cache.is_refresh_spawn effects = true
    <-> exists x l age,
          cache !! suggestion_type = Some (Cache.VList (x :: l))
          /\ Cache.cache_age cache = Some age /\ (300 < now - age)%Q)
   /\ (existsb Cache.is_refresh_spawn effects = true ->
       effects = [Cache.Spawn (Cache.refresh_ai_cache_task suggestion_type count)]
       /\ cache' = <["last_refresh" := Cache.VTime now]> cache)
   /\ (existsb Cache.is_refresh_spawn effects = false -> cache' = cache)
   /\ existsb Cache.is_await effects = false)
  /\ (forall (i j : nat) (t1 t2 : Q), (i < j)%nat ->
        Cache.refresh_times cache os !! i = Some t1 ->
        Cache.refresh_times cache os !! j = Some t2 ->
        (300 < t2 - t1)%Q).
Proof.
  intros Hmono. split.
  - apply generate_ai_suggestions_spawn.
  - apply ForallOrdPairs_lookup, refresh_times_apart, Hmono.
Qed.

(** C8 on the pre-warmed cache and the three sample calls. *)
Lemma refresh_throttled_witness :
  Cache.clock_monotone Samples.three_calls
  /\ (let '(suggestions, cache', effects) :=
        Cache.generate_ai_suggestions Cache.SUGGESTION_CACHE 1751716800 "event" 5 in
      (existsb Cache.is_refresh_spawn effects = true
       <-> exists x l age,
             Cache.SUGGESTION_CACHE !! "event" = Some (Cache.VList (x :: l))
             /\ Cache.cache_age Cache.SUGGESTION_CACHE = Some age
             /\ (300 < 1751716800 - age)%Q)
      /\ (existsb Cache.is_refresh_spawn effects = true ->
          effects = [Cache.Spawn (Cache.refresh_ai_cache_task "event" 5)]
          /\ cache' = <["last_refresh" := Cache.VTime 1751716800]> Cache.SUGGESTION_CACHE)
      /\ (existsb Cache.is_refresh_spawn effects = false -> cache' = Cache.SUGGESTION_CACHE)
      /\ existsb Cache.is_await effects = false)
  /\ (forall (i j : nat) (t1 t2 : Q), (i < j)%nat ->
        Cache.refresh_times Cache.SUGGESTION_CACHE Samples.three_calls !! i = Some t1 ->
        Cache.refresh_times Cache.SUGGESTION_CACHE Samples.three_calls !! j = Some t2 ->
        (300 < t2 - t1)%Q).
Proof.
  assert (Hm : Cache.clock_monotone Samples.three_calls).
  { unfold Cache.clock_monotone. cbn. repeat constructor; lra. }
  split; [exact Hm |].
  apply (refresh_throttled Cache.SUGGESTION_CACHE 1751716800 "event" 5 Samples.three_calls Hm).
Defined.


(** * Further properties *)

(** ** Modal navigation: errors, calls and fallbacks *)

(** Unfolds a run of the navigation down to the calls of the client. *)
Ltac unfold_navigation :=
  unfold Nav.handle_modal_navigation, Nav.navigate, Nav.last_resort, Nav.detect,
    Slack.try_except, Slack.bind, Slack.await, Slack.log, Slack.raise, Slack.ret.

(** Cases on the outcome of every call of the client, in the order made. *)
Ltac client_cases api :=
  repeat match goal with
         | |- context [api ?c ?st] =>
             let E := fresh "Ecall" in
             destruct (api c st) as [[? | [? | ?]] ?] eqn:E; cbn
         end.

(** X1. With neither a view identifier nor a usable trigger identifier in
    the body, the navigation raises a [ValueError] whatever the navigation
    type, and calls the platform not at all. *)
Theorem navigation_without_identifiers_raises {Modal Resp C : Type}
    (api : Slack.call Modal -> C -> (Resp + Slack.exn) * C) (s : C)
    (body : Slack.Body) (modal : Modal) (navigation_type : string) :
  Nav.view_id body = None ->
  Nav.trigger body = None ->
  exists msg t,
    Nav.handle_modal_navigation api body modal navigation_type s
    = (inr (Slack.ValueError msg), s, t)
    /\ Slack.calls t = [].
Proof.
  intros Hv Ht. unfold_navigation. rewrite Hv, Ht. cbn.
  destruct (String.eqb navigation_type "auto") eqn:Eauto.
  - destruct (bool_decide (is_Some (Slack.view body))); cbn; eauto.
  - destruct (String.eqb navigation_type "update") eqn:Eu; cbn; [eauto |].
    destruct (String.eqb navigation_type "push") eqn:Ep; cbn; [eauto |].
    destruct (String.eqb navigation_type "open") eqn:Eo; cbn; eauto.
Qed.

(** X1 on a body whose trigger identifier is empty and whose view has no
    identifier. *)
Lemma navigation_without_identifiers_raises_witness :
  Nav.view_id Samples.bare_body = None
  /\ Nav.trigger Samples.bare_body = None
  /\ exists msg t,
       Nav.handle_modal_navigation Samples.working_client Samples.bare_body
         "campaign_modal" "auto" tt
       = (inr (Slack.ValueError msg), tt, t)
       /\ Slack.calls t = [].
Proof.
  split; [reflexivity |]. split; [reflexivity |].
  apply (navigation_without_identifiers_raises Samples.working_client tt
           Samples.bare_body "campaign_modal" "auto"); reflexivity.
Defined.

(** X2. Whatever the client answers, a navigation makes at most four calls;
    each is a [views_update] on the view identifier of the body or a
    [views_open] or [views_push] on its trigger identifier, with the modal
    it was given; it pushes only when asked to push, and posts no message. *)
Theorem navigation_calls_address_body {Modal Resp C : Type}
    (api : Slack.call Modal -> C -> (Resp + Slack.exn) * C) (s : C)
    (body : Slack.Body) (modal : Modal) (navigation_type : string) :
  let '(_, _, t) := Nav.handle_modal_navigation api body modal navigation_type s in
  Forall (Nav.addresses_body body modal navigation_type) (Slack.calls t)
  /\ (length (Slack.calls t) <= 4)%nat.
Proof.
  destruct body as [tr vw us]. unfold_navigation. unfold Nav.view_id, Nav.trigger. cbn.
  assert (Hpush : String.eqb navigation_type "push" = true -> navigation_type = "push")
    by apply String.eqb_eq.
  destruct vw as [[[v |]] |]; destruct tr as [[| a tr] |]; cbn;
    destruct (String.eqb navigation_type "auto"); cbn;
    repeat match goal with
           | |- context [String.eqb navigation_type ?x] =>
               destruct (String.eqb navigation_type x); cbn
           end;
    client_cases api;
    (split; [repeat constructor; auto | lia]).
Qed.

(** X3. An update that the platform refuses falls back to opening the modal
    on the trigger identifier: when that is accepted, the navigation returns
    its response, after exactly these two calls. *)
Theorem update_falls_back_to_open {Modal Resp C : Type}
    (api : Slack.call Modal -> C -> (Resp + Slack.exn) * C) (s s1 s2 : C)
    (body : Slack.Body) (modal : Modal) (v t : string) (e : Slack.exn) (resp : Resp) :
  Nav.view_id body = Some v ->
  Nav.trigger body = Some t ->
  api (Slack.views_update v modal) s = (inr e, s1) ->
  api (Slack.views_open t modal) s1 = (inl resp, s2) ->
  exists tr,
    Nav.handle_modal_navigation api body modal "update" s = (inl resp, s2, tr)
    /\ Slack.calls tr = [Slack.views_update v modal; Slack.views_open t modal].
Proof.
  intros Hv Ht H1 H2. unfold_navigation. cbn. rewrite Hv, Ht, H1. cbn. rewrite H2.
  eexists. split; reflexivity.
Qed.

Lemma update_falls_back_to_open_witness :
  exists tr,
    Nav.handle_modal_navigation Samples.flaky_client Samples.full_body
      "campaign_modal" "update" 0%nat
    = (inl "ok", 2%nat, tr)
    /\ Slack.calls tr
       = [Slack.views_update "V0123" "campaign_modal";
          Slack.views_open "T77" "campaign_modal"].
Proof.
  apply (update_falls_back_to_open Samples.flaky_client 0%nat 1%nat 2%nat Samples.full_body
           "campaign_modal" "V0123" "T77" (Slack.OtherError "expired_trigger_id") "ok");
    reflexivity.
Defined.

(** X4. A push that the platform refuses falls back to updating the view of
    the body: when that is accepted, the navigation returns its response,
    after exactly these two calls. *)
Theorem push_falls_back_to_update {Modal Resp C : Type}
    (api : Slack.call Modal -> C -> (Resp + Slack.exn) * C) (s s1 s2 : C)
    (body : Slack.Body) (modal : Modal) (v t : string) (e : Slack.exn) (resp : Resp) :
  Nav.view_id body = Some v ->
  Nav.trigger body = Some t ->
  api (Slack.views_push t modal) s = (inr e, s1) ->
  api (Slack.views_update v modal) s1 = (inl resp, s2) ->
  exists tr,
    Nav.handle_modal_navigation api body modal "push" s = (inl resp, s2, tr)
    /\ Slack.calls tr = [Slack.views_push t modal; Slack.views_update v modal].
Proof.
  intros Hv Ht H1 H2. unfold_navigation. cbn. rewrite Hv, Ht, H1. cbn. rewrite H2.
  eexists. split; reflexivity.
Qed.

Lemma push_falls_back_to_update_witness :
  exists tr,
    Nav.handle_modal_navigation Samples.flaky_client Samples.full_body
      "campaign_modal" "push" 0%nat
    = (inl "ok", 2%nat, tr)
    /\ Slack.calls tr
       = [Slack.views_push "T77" "campaign_modal";
          Slack.views_update "V0123" "campaign_modal"].
Proof.
  apply (push_falls_back_to_update Samples.flaky_client 0%nat 1%nat 2%nat Samples.full_body
           "campaign_modal" "V0123" "T77" (Slack.OtherError "expired_trigger_id") "ok");
    reflexivity.
Defined.

(** ** The helpers of the action handlers *)

(** X5. [update_modal_view] never raises.  It calls the platform only to
    update the view it was given: once when that call succeeds or fails with
    a [ValueError], twice when the first call fails otherwise. *)
Theorem update_modal_view_never_raises {Modal Resp C : Type}
    (api : Slack.call Modal -> C -> (Resp + Slack.exn) * C) (s : C)
    (view_id : string) (modal : Modal) (user_id modal_type : string) :
  let u := Slack.views_update view_id modal in
  let '(r, s', t) := Actions.update_modal_view api view_id modal user_id modal_type s in
  r = inl tt
  /\ match api u s with
     | (inl _, s1) | (inr (Slack.ValueError _), s1) => s' = s1 /\ Slack.calls t = [u]
     | (inr (Slack.OtherError _), s1) => s' = snd (api u s1) /\ Slack.calls t = [u; u]
     end.
Proof.
  intros u. unfold Actions.update_modal_view. unfold_navigation. cbn. fold u.
  destruct (api u s) as [[resp | [m | m]] s1] eqn:E1; cbn.
  - repeat split.
  - repeat split.
  - destruct (api u s1) as [[resp | e] s2] eqn:E2; cbn; repeat split.
Qed.

(** X6. [post_to_channel_safe] never raises.  It posts the text to the
    channel; only when the platform refuses that does it post once more, to
    the user, the text headed by the name of the channel. *)
Theorem post_to_channel_safe_never_raises {Modal Resp C : Type}
    (api : Slack.call Modal -> C -> (Resp + Slack.exn) * C) (s : C)
    (channel text user_id : string) :
  let post := Slack.chat_postMessage (Modal := Modal) channel text in
  let dm := Slack.chat_postMessage (Modal := Modal) user_id
              ("*(From " +:+ channel +:+ ")*" +:+ Py.NL +:+ Py.NL +:+ text) in
  let '(r, s', t) := Actions.post_to_channel_safe api channel text user_id s in
  r = inl tt
  /\ match api post s with
     | (inl _, s1) => s' = s1 /\ Slack.calls t = [post]
     | (inr _, s1) => s' = snd (api dm s1) /\ Slack.calls t = [post; dm]
     end.
Proof.
  intros post dm. unfold Actions.post_to_channel_safe.
  unfold Slack.try_except, Slack.bind, Slack.await, Slack.log, Slack.ret. fold post dm.
  destruct (api post s) as [[resp | e] s1] eqn:E1; cbn.
  - repeat split.
  - destruct (api dm s1) as [[resp | e'] s2] eqn:E2; cbn; repeat split.
Qed.

(** ** The campaign form of the template dispatcher *)

Lemma post_to_channel_safe_returns {Modal Resp C : Type}
    (api : Slack.call Modal -> C -> (Resp + Slack.exn) * C) (s : C)
    (channel text user_id : string) :
  fst (fst (Actions.post_to_channel_safe api channel text user_id s)) = inl tt.
Proof.
  unfold Actions.post_to_channel_safe.
  unfold Slack.try_except, Slack.bind, Slack.await, Slack.log, Slack.ret.
  destruct (api (Slack.chat_postMessage channel text) s) as [[resp | e] s1]; cbn;
    [reflexivity |].
  match goal with
  | |- context [api ?c s1] => destruct (api c s1) as [[? | ?] ?]; reflexivity
  end.
Qed.

(** A physical-event submission, on a client that accepts the post. *)
Example block_party_confirmation :
  Slack.calls
    (snd (Actions.handle_campaign_submission Samples.working_client
            "U42" "Block Party" "awareness" "locals" "physical_event" tt))
  = [Slack.chat_postMessage "#marketing-event-updates-hackathon"
       ("✅ *Physical Event Campaign Created!*" +:+ Py.NL +:+ Py.NL
          +:+ "*Name:* Block Party" +:+ Py.NL +:+ "*Goal:* awareness" +:+ Py.NL
          +:+ "*Target:* locals" +:+ Py.NL +:+ Py.NL
          +:+ "📋 *Dual Parent Tickets Created:*" +:+ Py.NL
          +:+ "• 🎪 Event Planning Parent (Kate/Karen)" +:+ Py.NL
          +:+ "• 📧 Email Campaign Parent (Jheryl)" +:+ Py.NL +:+ Py.NL
          +:+ "*Event Planning Tasks:* 5 tasks" +:+ Py.NL
          +:+ "*Email Campaign Tasks:* 6 tasks")].
Proof. vm_compute. reflexivity. Qed.

(** X7. The submission handler of the template dispatcher never raises and
    never takes its error path: the keys it reads from the summary are those
    the dispatcher wrote for that campaign type.  Whatever the type and the
    client, it does what posting the confirmation does: the message names 5
    event-planning and 6 email tasks for a physical event, 6 tasks otherwise,
    and goes to the campaigns channel, or to the user when the channel
    refuses. *)
Theorem campaign_confirmation_always_posted {Modal Resp C : Type}
    (api : Slack.call Modal -> C -> (Resp + Slack.exn) * C) (s : C)
    (user_id name goal target campaign_type : string) :
  let message :=
    if String.eqb campaign_type "physical_event" then
      ((Actions.confirmation_head name goal target campaign_type
          +:+ "📋 *Dual Parent Tickets Created:*" +:+ Py.NL
          +:+ "• 🎪 Event Planning Parent (Kate/Karen)" +:+ Py.NL
          +:+ "• 📧 Email Campaign Parent (Jheryl)" +:+ Py.NL +:+ Py.NL)
         +:+ "*Event Planning Tasks:* 5 tasks" +:+ Py.NL)
        +:+ "*Email Campaign Tasks:* 6 tasks"
    else
      Actions.confirmation_head name goal target campaign_type
        +:+ "📋 *Email Campaign Workflow Created*" +:+ Py.NL +:+ "*Tasks:* 6 tasks" in
  let '(r, s', t) :=
    Actions.handle_campaign_submission api user_id name goal target campaign_type s in
  let '(r0, s0, t0) :=
    Actions.post_to_channel_safe api Actions.CHANNEL_CAMPAIGNS message user_id s in
  r = inl tt /\ r0 = inl tt /\ s' = s0 /\ Slack.calls t = Slack.calls t0.
Proof.
  unfold Actions.handle_campaign_submission, Actions.process_campaign, Actions.getitem,
    Templates.process_campaign_with_workflow_templates.
  destruct (String.eqb campaign_type "physical_event");
    unfold Slack.try_except, Slack.bind, Slack.log, Slack.ret;
    cbn -[Actions.post_to_channel_safe Actions.confirmation_head Py.NL];
    match goal with
    | |- context [Actions.post_to_channel_safe api _ ?m1 _ _] =>
        match goal with
        | |- context [Actions.post_to_channel_safe api _ ?m2 _ _] =>
            first [constr_eq m1 m2; fail 1 | change m2 with m1]
        end
    end;
    match goal with
    | |- context [Actions.post_to_channel_safe api ?c ?m ?u s] =>
        pose proof (post_to_channel_safe_returns api s c m u) as Hok;
        destruct (Actions.post_to_channel_safe api c m u s) as [[r0 s0] t0]
    end;
    cbn in Hok; subst r0; cbn; repeat split.
Qed.

(** ** The help command *)

(** X8. The help command never raises.  With a usable trigger identifier it
    opens the hub on it, a second time when the first opening fails other
    than by a [ValueError]; it posts its apology to the user exactly when
    the hub could not be opened, and that is then its last call.  With no
    usable trigger identifier the apology is its only call. *)
Theorem help_command_opens_or_apologises {Modal Resp C : Type}
    (api : Slack.call Modal -> C -> (Resp + Slack.exn) * C) (s : C)
    (user_id trigger_id : option string) (modal_view : Modal) :
  let sorry := Slack.chat_postMessage (Modal := Modal) (default "unknown" user_id)
                 Commands.SORRY in
  let '(r, _, t) := Commands.handle_help_command api user_id trigger_id modal_view s in
  r = inl tt
  /\ match Nav.trigger {| Slack.trigger_id := trigger_id; Slack.view := None;
                          Slack.user := None |} with
     | None => Slack.calls t = [sorry]
     | Some tr =>
         let open := Slack.views_open tr modal_view in
         match api open s with
         | (inl _, _) => Slack.calls t = [open]
         | (inr (Slack.ValueError _), _) => Slack.calls t = [open; sorry]
         | (inr (Slack.OtherError _), s1) =>
             match api open s1 with
             | (inl _, _) => Slack.calls t = [open; open]
             | (inr _, _) => Slack.calls t = [open; open; sorry]
             end
         end
     end.
Proof.
  intros sorry. unfold Commands.handle_help_command. unfold_navigation.
  unfold Nav.view_id, Nav.trigger. cbn. fold sorry.
  destruct trigger_id as [[| a tr] |]; cbn.
  - destruct (api sorry s) as [[? | ?] ?]; cbn; repeat split.
  - destruct (api (Slack.views_open (String a tr) modal_view) s)
      as [[resp | [m | m]] s1] eqn:E1; cbn.
    + repeat split.
    + destruct (api sorry s1) as [[? | ?] ?]; cbn; repeat split.
    + destruct (api (Slack.views_open (String a tr) modal_view) s1)
        as [[resp | e] s2] eqn:E2; cbn.
      * repeat split.
      * destruct (api sorry s2) as [[? | ?] ?]; cbn; repeat split.
  - destruct (api sorry s) as [[? | ?] ?]; cbn; repeat split.
Qed.

(** ** The ticket-creating submission handler *)

(** X9. The ticket-creating submission handler first posts the confirmation
    to the user.  When the platform accepts it, that is its only call.  When
    the platform refuses it, the handler posts to the user that the campaign
    could not be created, naming the error, and raises only if this second
    post is refused as well: its error path is reached by a failed post
    alone, the tickets being already made. *)
Theorem submission_reports_failed_post {Modal Resp C : Type}
    (api : Slack.call Modal -> C -> (Resp + Slack.exn) * C) (hash : string -> Z) (s : C)
    (user_id name goal target campaign_type : string) :
  let confirmation :=
    Slack.chat_postMessage (Modal := Modal) user_id
      (snd (Submission.create_tickets hash name goal target campaign_type)) in
  let '(r, s', t) :=
    Submission.handle_campaign_submission api hash user_id name goal target campaign_type s in
  match api confirmation s with
  | (inl _, s1) => r = inl tt /\ s' = s1 /\ Slack.calls t = [confirmation]
  | (inr e, s1) =>
      let failure :=
        Slack.chat_postMessage (Modal := Modal) user_id
          ("❌ Failed to create campaign: " +:+ Slack.message e) in
      Slack.calls t = [confirmation; failure]
      /\ match api failure s1 with
         | (inl _, s2) => r = inl tt /\ s' = s2
         | (inr e2, s2) => r = inr e2 /\ s' = s2
         end
  end.
Proof.
  intros confirmation. unfold Submission.handle_campaign_submission.
  unfold Slack.try_except, Slack.bind, Slack.await, Slack.log, Slack.ret.
  subst confirmation.
  destruct (Submission.create_tickets hash name goal target campaign_type) as [result message].
  cbn [snd].
  destruct (api (Slack.chat_postMessage user_id message) s) as [[resp | e] s1] eqn:E1; cbn.
  - repeat split.
  - destruct (api (Slack.chat_postMessage user_id
                     ("❌ Failed to create campaign: " +:+ Slack.message e)) s1)
      as [[resp | e2] s2] eqn:E2; cbn; repeat split.
Qed.

(** ** The project tracker: campaign details and the legacy board *)

(** The active campaigns are the three mock records, or their first
    [limit]. *)
Example two_active_campaigns :
  List.map (fun c => c !! "campaign_name")
    (Monday.get_active_campaigns Samples.noon Samples.noon Samples.noon 2)
  = [Some "Receipt Heroes Q3 Launch"; Some "Scan & Earn 2.0 Promo"].
Proof. vm_compute. reflexivity. Qed.

Lemma active_campaigns_have_no_id (now1 now2 now3 : Datetime.datetime) :
  Forall (fun c : gmap string string => c !! "id" = None)
    (Monday.get_active_campaigns now1 now2 now3 10).
Proof.
  unfold Monday.get_active_campaigns, Py.slice_to. cbn [Z.leb Z.compare firstn Z.to_nat].
  repeat constructor.
Qed.

(** X10. The campaign records that [get_active_campaigns] returns carry no
    ['id'] key, so [get_campaign_details] finds no campaign whatever the
    identifier asked for: it returns [None], having logged the [KeyError] it
    caught at the first record. *)
Theorem campaign_details_never_found (now1 now2 now3 : Datetime.datetime)
    (campaign_id : string) :
  Monday.get_campaign_details now1 now2 now3 campaign_id
  = (None, ["Error fetching campaign details: 'id'"])
  /\ Forall (fun c : gmap string string => c !! "id" = None)
       (Monday.get_active_campaigns now1 now2 now3 10)
  /\ length (Monday.get_active_campaigns now1 now2 now3 10) = 3%nat.
Proof.
  pose proof (active_campaigns_have_no_id now1 now2 now3) as Hno.
  split; [| split; [exact Hno | reflexivity]].
  unfold Monday.get_campaign_details.
  destruct (Monday.get_active_campaigns now1 now2 now3 10) as [| c rest] eqn:E.
  - discriminate E.
  - apply Forall_cons in Hno as [Hc _]. cbn [Monday.find_campaign]. rewrite Hc. reflexivity.
Qed.

(** X11. The legacy [create_campaign_board] names the campaign after the
    ['event_name'] of the campaign data when there is one, and after its
    [campaign_name] argument only otherwise: with an ['event_name'] in the
    data the argument is ignored, and the board is that of the unified
    workflow on the data as they are.  The board is created whenever the
    reference date is a date of the library. *)
Theorem campaign_board_name_precedence (hash : string -> Z)
    (now1 now2 now3 : Datetime.datetime) (campaign_name : string)
    (campaign_data : gmap string string) :
  (Datetime.in_range (Datetime.add now2 (Datetime.days 30)) = true ->
   exists w,
     Monday.create_campaign_board hash now1 now2 now3 campaign_name campaign_data = Some w
     /\ Monday.parent_task_name (Monday.parent_task w)
        = default campaign_name (campaign_data !! "event_name") +:+ " - "
            +:+ default "" (campaign_data !! "event_dates"))
  /\ (is_Some (campaign_data !! "event_name") ->
      Monday.create_campaign_board hash now1 now2 now3 campaign_name campaign_data
      = Monday.create_unified_campaign_workflow hash now1 now2 now3 campaign_data).
Proof.
  unfold Monday.create_campaign_board. split.
  - intros Hr. unfold Monday.create_unified_campaign_workflow.
    rewrite (checked_event_date_in_range _ _ Hr).
    eexists. split; [reflexivity |].
    cbn [Monday.parent_task Monday._create_parent_task Monday.parent_task_name].
    unfold Monday.get. rewrite !lookup_union, lookup_singleton_eq.
    rewrite lookup_singleton_ne by discriminate.
    destruct (campaign_data !! "event_name"), (campaign_data !! "event_dates"); reflexivity.
  - intros [e He]. f_equal. apply map_eq. intros k. rewrite lookup_union.
    destruct (decide (k = "event_name")) as [-> | Hne].
    + rewrite He, lookup_singleton_eq. reflexivity.
    + rewrite lookup_singleton_ne by congruence.
      destruct (campaign_data !! k); reflexivity.
Qed.

(** X11 on campaign data that name the event themselves. *)
Lemma campaign_board_name_precedence_witness :
  (Datetime.in_range (Datetime.add Samples.noon (Datetime.days 30)) = true ->
   exists w,
     Monday.create_campaign_board (fun _ => 0) Samples.noon Samples.noon Samples.noon
       "Legacy name" (<["event_name" := "Fall Sale"]> ∅) = Some w
     /\ Monday.parent_task_name (Monday.parent_task w)
        = default "Legacy name"
            ((<["event_name" := "Fall Sale"]> ∅ : gmap string string) !! "event_name")
            +:+ " - "
            +:+ default ""
                  ((<["event_name" := "Fall Sale"]> ∅ : gmap string string) !! "event_dates"))
  /\ (is_Some ((<["event_name" := "Fall Sale"]> ∅ : gmap string string) !! "event_name") ->
      Monday.create_campaign_board (fun _ => 0) Samples.noon Samples.noon Samples.noon
        "Legacy name" (<["event_name" := "Fall Sale"]> ∅)
      = Monday.create_unified_campaign_workflow (fun _ => 0) Samples.noon Samples.noon
          Samples.noon (<["event_name" := "Fall Sale"]> ∅)).
Proof.
  apply (campaign_board_name_precedence (fun _ => 0) Samples.noon Samples.noon Samples.noon
           "Legacy name" (<["event_name" := "Fall Sale"]> ∅)).
Defined.

(** ** The unified workflow: parent, subtasks and reminders *)

(** X12. The unified workflow fails, returning [None], exactly when the
    reference date of its subtasks, 30 days after the clock reading, is past
    the last date of the library: the overflow raised in
    [_create_campaign_subtasks] is raised again by the handler of its own
    [try] and caught by the workflow.  No campaign data make it fail, a
    missing key takes its default; the last clock reading at which a workflow
    is created is 9999-12-01T23:59:59.999999. *)
Theorem unified_workflow_fails_on_overflow (hash : string -> Z)
    (now1 now2 now3 : Datetime.datetime) (campaign_data : gmap string string) :
  0 <= now2 ->
  (Monday.create_unified_campaign_workflow hash now1 now2 now3 campaign_data = None
   <-> Datetime.of_ordinal 3652029 23 59 59 999999 < now2)
  /\ (is_Some (Monday.create_unified_campaign_workflow hash now1 now2 now3 campaign_data)
      <-> now2 <= Datetime.of_ordinal 3652029 23 59 59 999999).
Proof.
  intros H0.
  assert (Hr : Datetime.in_range (Datetime.add now2 (Datetime.days 30)) = true
               <-> now2 <= Datetime.of_ordinal 3652029 23 59 59 999999).
  { unfold Datetime.in_range, Datetime.add.
    rewrite andb_true_iff, Z.leb_le, Z.leb_le.
    replace (Datetime.days 30) with 2592000000000 by reflexivity.
    replace Datetime.max with 315537897599999999 by reflexivity.
    replace (Datetime.of_ordinal 3652029 23 59 59 999999) with 315535305599999999
      by reflexivity.
    lia. }
  unfold Monday.create_unified_campaign_workflow.
  destruct (Datetime.in_range (Datetime.add now2 (Datetime.days 30))) eqn:E.
  - rewrite (checked_event_date_in_range _ _ E).
    pose proof (proj1 Hr eq_refl) as Hle. split.
    + split; [discriminate | lia].
    + split; [intros _; exact Hle | intros _; eexists; reflexivity].
  - rewrite (checked_event_date_overflow _ _ E).
    assert (Hgt : Datetime.of_ordinal 3652029 23 59 59 999999 < now2).
    { destruct (Z_lt_le_dec (Datetime.of_ordinal 3652029 23 59 59 999999) now2)
        as [Hlt | Hle]; [exact Hlt |]. apply Hr in Hle. discriminate. }
    split.
    + split; [intros _; exact Hgt | reflexivity].
    + split; [intros [w Hw]; discriminate | lia].
Qed.

(** X12 on the first instant of 9999-12-02: no workflow is created then. *)
Lemma unified_workflow_fails_on_overflow_witness :
  Monday.create_unified_campaign_workflow (fun _ => 0) Samples.noon
    (Datetime.of_ordinal 3652030 0 0 0 0) Samples.noon
    (<["event_name" := "Fall Sale"]> ∅) = None.
Proof.
  apply (unified_workflow_fails_on_overflow (fun _ => 0) Samples.noon
           (Datetime.of_ordinal 3652030 0 0 0 0) Samples.noon
           (<["event_name" := "Fall Sale"]> ∅)).
  - vm_compute. discriminate.
  - vm_compute. reflexivity.
Defined.

Lemma filter_imap_nil {A B} (P : B -> bool) (g : nat -> A -> B) (l : list A) :
  (forall i x, P (g i x) = false) -> List.filter P (imap g l) = [].
Proof.
  revert g. induction l as [| x l IH]; intros g Hg; [reflexivity |].
  cbn [imap List.filter]. rewrite Hg. apply IH. intros i y. apply Hg.
Qed.

(** The reminders of a workflow with two deliverables. *)
Example reminders_with_two_deliverables :
  List.map Calendar.title
    (Calendar.create_reminders (fun _ => 0) (fun _ => Samples.noon) "Fall Sale"
       (Monday.create_unified_campaign_workflow (fun _ => 0) Samples.noon Samples.noon
          Samples.noon (<["deliverables" := Samples.two_deliverables]> ∅)))
  = ["🔔 Due: EDEN Review - Fall Sale"].
Proof. vm_compute. reflexivity. Qed.

(** X13. Whatever the deliverables, the unified workflow gets exactly one
    calendar reminder: that of the approval review, the one subtask assigned
    to "Karen or Kate", starting at its due date, 10 days before the
    reference date.  The design and creative-review subtasks and every
    deliverable subtask get none.  This is so whenever the workflow is
    created, that is, whenever the reference date is a date of the library. *)
Theorem one_reminder_per_workflow (hash : string -> Z) (now : nat -> Datetime.datetime)
    (event_name : string) (now1 now2 now3 : Datetime.datetime)
    (campaign_data : gmap string string) :
  Datetime.in_range (Datetime.add now2 (Datetime.days 30)) = true ->
  let reminders :=
    Calendar.create_reminders hash now event_name
      (Monday.create_unified_campaign_workflow hash now1 now2 now3 campaign_data) in
  let D := Monday.event_date now2 (Monday.get campaign_data "event_dates" "") in
  List.map Calendar.title reminders = ["🔔 Due: EDEN Review - " +:+ event_name]
  /\ List.map Calendar.start_date reminders
     = [Datetime.isoformat (Datetime.sub D (Datetime.days 10))]
  /\ List.map Calendar.status reminders = ["created"].
Proof.
  intros Hr reminders D. subst reminders.
  unfold Calendar.create_reminders, Monday.create_unified_campaign_workflow.
  rewrite (checked_event_date_in_range _ _ Hr).
  cbn [Monday.subtasks]. rewrite create_campaign_subtasks_shape. fold D.
  rewrite List.filter_app.
  match goal with
  | |- context [List.filter Calendar.wants_reminder (imap ?g ?l)] =>
      match l with
      | Monday.standard_subtasks _ => fail 1
      | _ => replace (List.filter Calendar.wants_reminder (imap g l)) with (@nil Monday.Subtask)
      end
  end.
  - rewrite app_nil_r. repeat split.
  - symmetry.
    destruct (Py.truthy (Monday.get campaign_data "deliverables" "")
              && Py.truthy (Py.strip (Monday.get campaign_data "deliverables" ""))).
    + rewrite imap_fmap. apply filter_imap_nil. intros i item. reflexivity.
    + reflexivity.
Qed.

(** X13 on a workflow with two deliverables. *)
Lemma one_reminder_per_workflow_witness :
  let reminders :=
    Calendar.create_reminders (fun _ => 0) (fun _ => Samples.noon) "Fall Sale"
      (Monday.create_unified_campaign_workflow (fun _ => 0) Samples.noon Samples.noon
         Samples.noon (<["deliverables" := Samples.two_deliverables]> ∅)) in
  let D :=
    Monday.event_date Samples.noon
      (Monday.get (<["deliverables" := Samples.two_deliverables]> ∅) "event_dates" "") in
  List.map Calendar.title reminders = ["🔔 Due: EDEN Review - " +:+ "Fall Sale"]
  /\ List.map Calendar.start_date reminders
     = [Datetime.isoformat (Datetime.sub D (Datetime.days 10))]
  /\ List.map Calendar.status reminders = ["created"].
Proof.
  apply (one_reminder_per_workflow (fun _ => 0) (fun _ => Samples.noon) "Fall Sale"
           Samples.noon Samples.noon Samples.noon
           (<["deliverables" := Samples.two_deliverables]> ∅)).
  vm_compute. reflexivity.
Defined.

(** ** Generated suggestions *)

(** X14. With the service configured and an answer received, suggestion
    generation returns at most [count] suggestions, each the stripped text of
    a line of the answer, and none of them empty. *)
Theorem generated_suggestions_are_not_blank (content tag : string) (count : Z) :
  0 <= count ->
  let suggestions := AI.generate_campaign_suggestions (Some tt) (Some content) tag count in
  (length suggestions <= Z.to_nat count)%nat
  /\ Forall (fun s => s <> "" /\ exists line, line ∈ Py.split_lines content /\ s = Py.strip line)
       suggestions.
Proof.
  intros Hc suggestions. subst suggestions. unfold AI.generate_campaign_suggestions, Py.slice_to.
  replace (0 <=? count) with true by (symmetry; apply Z.leb_le; exact Hc).
  split.
  - rewrite length_take. lia.
  - apply Forall_take. apply Forall_forall. intros s Hs.
    apply list_elem_of_In, in_map_iff in Hs as (line & <- & Hin).
    apply filter_In in Hin as [Hin Ht]. split.
    + intros Hempty. rewrite Hempty in Ht. discriminate Ht.
    + exists line. split; [apply list_elem_of_In, Hin | reflexivity].
Qed.

Lemma generated_suggestions_are_not_blank_witness :
  0 <= 2
  /\ (length (AI.generate_campaign_suggestions (Some tt)
                (Some ("  Spring scan-a-thon " +:+ Py.NL +:+ Py.NL +:+ "Points picnic"
                         +:+ Py.NL +:+ "Third idea"))
                "campaign" 2) <= Z.to_nat 2)%nat
  /\ Forall (fun s => s <> ""
                      /\ exists line,
                           line ∈ Py.split_lines
                                    ("  Spring scan-a-thon " +:+ Py.NL +:+ Py.NL
                                       +:+ "Points picnic" +:+ Py.NL +:+ "Third idea")
                           /\ s = Py.strip line)
       (AI.generate_campaign_suggestions (Some tt)
          (Some ("  Spring scan-a-thon " +:+ Py.NL +:+ Py.NL +:+ "Points picnic"
                   +:+ Py.NL +:+ "Third idea"))
          "campaign" 2).
Proof.
  split; [lia |].
  apply (generated_suggestions_are_not_blank
           ("  Spring scan-a-thon " +:+ Py.NL +:+ Py.NL +:+ "Points picnic"
              +:+ Py.NL +:+ "Third idea") "campaign" 2).
  lia.
Defined.

Example generated_suggestions_run :
  AI.generate_campaign_suggestions (Some tt)
    (Some ("  Spring scan-a-thon " +:+ Py.NL +:+ Py.NL +:+ "Points picnic"
             +:+ Py.NL +:+ "Third idea"))
    "campaign" 2
  = ["Spring scan-a-thon"; "Points picnic"].
Proof. vm_compute. reflexivity. Qed.

(** ** The suggestion cache: what a call and a task leave behind *)

Lemma generate_ai_suggestions_cached (cache : gmap string Cache.value) (now : Q)
    (suggestion_type : string) (count : Z) (x : string) (l : list string) (age : Q) :
  cache !! suggestion_type = Some (Cache.VList (x :: l)) ->
  Cache.cache_age cache = Some age ->
  Cache.generate_ai_suggestions cache now suggestion_type count
  = if Cache.Qgtb (now - age) 300
    then (Py.slice_to (x :: l) count, <["last_refresh" := Cache.VTime now]> cache,
          [Cache.Spawn (Cache.refresh_ai_cache_task suggestion_type count)])
    else (Py.slice_to (x :: l) count, cache, []).
Proof.
  intros Hc Ha. unfold Cache.generate_ai_suggestions. rewrite Hc, Ha. reflexivity.
Qed.

(** X15. A call of [generate_ai_suggestions] changes no cached entry other
    than the last-refresh timestamp, which it either leaves or sets to its
    clock reading. *)
Theorem call_keeps_cached_suggestions (cache : gmap string Cache.value) (now : Q)
    (suggestion_type : string) (count : Z) :
  let cache' := snd (fst (Cache.generate_ai_suggestions cache now suggestion_type count)) in
  (forall k : string, k <> "last_refresh" -> cache' !! k = cache !! k)
  /\ (cache' = cache \/ cache' !! "last_refresh" = Some (Cache.VTime now)).
Proof.
  pose proof (generate_ai_suggestions_spawn cache now suggestion_type count) as H.
  destruct (Cache.generate_ai_suggestions cache now suggestion_type count)
    as [[sg cache'] eff].
  destruct H as (_ & Hyes & Hno & _). cbn [fst snd].
  destruct (existsb Cache.is_refresh_spawn eff).
  - destruct (Hyes eq_refl) as [_ ->]. split.
    + intros k Hk. apply lookup_insert_ne. congruence.
    + right. apply lookup_insert_eq.
  - rewrite (Hno eq_refl). split; [reflexivity | left; reflexivity].
Qed.

(** X16. For a type with a cached list, and a last-refresh value that is a
    number, a call returns the first [count] cached suggestions and never
    cycles them: asking for more than are cached returns them all, no
    more. *)
Theorem cached_suggestions_are_not_cycled (cache : gmap string Cache.value) (now : Q)
    (suggestion_type : string) (count : Z) (x : string) (l : list string) (age : Q) :
  cache !! suggestion_type = Some (Cache.VList (x :: l)) ->
  Cache.cache_age cache = Some age ->
  0 <= count ->
  fst (fst (Cache.generate_ai_suggestions cache now suggestion_type count))
  = take (Z.to_nat count) (x :: l)
  /\ length (fst (fst (Cache.generate_ai_suggestions cache now suggestion_type count)))
     = Nat.min (Z.to_nat count) (S (length l)).
Proof.
  intros Hc Ha Hn.
  rewrite (generate_ai_suggestions_cached cache now suggestion_type count x l age Hc Ha).
  assert (Hs : Py.slice_to (x :: l) count = take (Z.to_nat count) (x :: l)).
  { unfold Py.slice_to. replace (0 <=? count) with true by (symmetry; apply Z.leb_le, Hn).
    reflexivity. }
  destruct (Cache.Qgtb (now - age) 300); cbn [fst]; rewrite Hs;
    (split; [reflexivity | rewrite length_take; reflexivity]).
Qed.

(** X16 on a cache of two event suggestions and a request for seven. *)
Lemma cached_suggestions_are_not_cycled_witness :
  fst (fst (Cache.generate_ai_suggestions
              (<["event" := Cache.VList ["Fetch Field Day"; "Receipt Race"]]> ∅)
              1751716800 "event" 7))
  = take (Z.to_nat 7) ["Fetch Field Day"; "Receipt Race"]
  /\ length (fst (fst (Cache.generate_ai_suggestions
                         (<["event" := Cache.VList ["Fetch Field Day"; "Receipt Race"]]> ∅)
                         1751716800 "event" 7)))
     = Nat.min (Z.to_nat 7) 2.
Proof.
  apply (cached_suggestions_are_not_cycled
           (<["event" := Cache.VList ["Fetch Field Day"; "Receipt Race"]]> ∅)
           1751716800 "event" 7 "Fetch Field Day" ["Receipt Race"] 0%Q);
    [reflexivity | reflexivity | lia].
Defined.

(** X17. Once a refresh task has stored a non-empty answer for a suggestion
    type, the next call for that type returns the first [count] suggestions
    of that answer; the refresh leaves the last-refresh timestamp as it
    was. *)
Theorem refreshed_suggestions_are_served (cache : gmap string Cache.value) (now : Q)
    (suggestion_type : string) (n count : Z) (x : string) (l : list string) (age : Q) :
  suggestion_type <> "last_refresh" ->
  Cache.cache_age cache = Some age ->
  let cache1 := fst (Cache.refresh_ai_cache cache suggestion_type n (inl (x :: l))) in
  fst (fst (Cache.generate_ai_suggestions cache1 now suggestion_type count))
  = Py.slice_to (x :: l) count
  /\ cache1 !! "last_refresh" = cache !! "last_refresh".
Proof.
  intros Hne Ha cache1. subst cache1. cbn [Cache.refresh_ai_cache fst].
  assert (Ha1 : Cache.cache_age (<[suggestion_type := Cache.VList (x :: l)]> cache) = Some age).
  { unfold Cache.cache_age in *. rewrite lookup_insert_ne by exact Hne. exact Ha. }
  split.
  - rewrite (generate_ai_suggestions_cached _ now suggestion_type count x l age
               (lookup_insert_eq _ _ _) Ha1).
    destruct (Cache.Qgtb (now - age) 300); reflexivity.
  - apply lookup_insert_ne. exact Hne.
Qed.

Lemma refreshed_suggestions_are_served_witness :
  fst (fst (Cache.generate_ai_suggestions
              (fst (Cache.refresh_ai_cache Cache.SUGGESTION_CACHE "event" 5
                      (inl ["Fetch Field Day"; "Receipt Race"])))
              1751716800 "event" 1))
  = Py.slice_to ["Fetch Field Day"; "Receipt Race"] 1
  /\ fst (Cache.refresh_ai_cache Cache.SUGGESTION_CACHE "event" 5
            (inl ["Fetch Field Day"; "Receipt Race"])) !! "last_refresh"
     = Cache.SUGGESTION_CACHE !! "last_refresh".
Proof.
  apply (refreshed_suggestions_are_served Cache.SUGGESTION_CACHE 1751716800 "event" 5 1
           "Fetch Field Day" ["Receipt Race"] 0%Q); [discriminate | reflexivity].
Defined.

(** X18. A population task that stored a non-empty answer also stamps the
    cache: a call for that type within the next 300 seconds returns the
    first [count] suggestions of that answer, spawns no task and leaves the
    cache as the population left it. *)
Theorem populated_cache_is_fresh (cache : gmap string Cache.value) (populated now : Q)
    (suggestion_type : string) (n count : Z) (x : string) (l : list string) :
  suggestion_type <> "last_refresh" ->
  (now - populated <= 300)%Q ->
  let cache1 :=
    fst (Cache.populate_cache_background cache populated suggestion_type n (inl (x :: l))) in
  Cache.generate_ai_suggestions cache1 now suggestion_type count
  = (Py.slice_to (x :: l) count, cache1, []).
Proof.
  intros Hne Hle cache1. subst cache1. cbn [Cache.populate_cache_background fst].
  destruct (cache_age_stamp (<[suggestion_type := Cache.VList (x :: l)]> cache) populated)
    as (age & Ha & Heq).
  rewrite (generate_ai_suggestions_cached _ now suggestion_type count x l age); [| | exact Ha].
  - destruct (Cache.Qgtb (now - age) 300) eqn:Eg; [| reflexivity].
    apply Qgtb_true in Eg. lra.
  - rewrite lookup_insert_ne by congruence. apply lookup_insert_eq.
Qed.

Lemma populated_cache_is_fresh_witness :
  Cache.generate_ai_suggestions
    (fst (Cache.populate_cache_background Cache.SUGGESTION_CACHE 1751716800 "email" 5
            (inl ["Weekly Bonus Points Roundup"])))
    1751717100 "email" 3
  = (Py.slice_to ["Weekly Bonus Points Roundup"] 3,
     fst (Cache.populate_cache_background Cache.SUGGESTION_CACHE 1751716800 "email" 5
            (inl ["Weekly Bonus Points Roundup"])),
     []).
Proof.
  apply (populated_cache_is_fresh Cache.SUGGESTION_CACHE 1751716800 1751717100 "email" 5 3
           "Weekly Bonus Points Roundup" []); [discriminate | lra].
Defined.

(** ** Dividers in a modal *)

Section Dividers.
Context {Block : Type}.
Variable block_type : Block -> option string.
Variable divider : Block.

Lemma add_dividers_cons (block : Block) (blocks : list Block) :
  Modals.add_dividers_to_modal block_type divider (Some (block :: blocks))
  = (if Modals.is_section block_type block then [block; divider] else [block])
    ++ Modals.add_dividers_to_modal block_type divider (Some blocks).
Proof. reflexivity. Qed.

Lemma add_dividers_length (blocks : list Block) :
  length (Modals.add_dividers_to_modal block_type divider (Some blocks))
  = (length blocks + length (List.filter (Modals.is_section block_type) blocks))%nat.
Proof.
  induction blocks as [| b blocks IH]; [reflexivity |].
  rewrite add_dividers_cons, length_app, IH. cbn [List.filter].
  destruct (Modals.is_section block_type b); cbn; lia.
Qed.

Lemma add_dividers_sublist (blocks : list Block) :
  blocks `sublist_of` Modals.add_dividers_to_modal block_type divider (Some blocks).
Proof.
  induction blocks as [| b blocks IH]; [constructor |].
  rewrite add_dividers_cons.
  destruct (Modals.is_section block_type b); cbn [app].
  - apply sublist_skip, sublist_cons, IH.
  - apply sublist_skip, IH.
Qed.

Lemma add_dividers_follow (blocks : list Block) :
  block_type divider = Some "divider" ->
  forall (i : nat) (b : Block),
    Modals.add_dividers_to_modal block_type divider (Some blocks) !! i = Some b ->
    Modals.is_section block_type b = true ->
    Modals.add_dividers_to_modal block_type divider (Some blocks) !! S i = Some divider.
Proof.
  intros Hd.
  assert (Hnd : Modals.is_section block_type divider = false).
  { unfold Modals.is_section. rewrite Hd. reflexivity. }
  induction blocks as [| b0 blocks IH]; intros i b Hi Hb.
  - cbn in Hi. rewrite lookup_nil in Hi. discriminate.
  - rewrite add_dividers_cons in Hi |- *.
    destruct (Modals.is_section block_type b0) eqn:E0; cbn [app] in Hi |- *.
    + destruct i as [| [| i]]; cbn in Hi |- *.
      * reflexivity.
      * injection Hi as <-. congruence.
      * apply (IH i b Hi Hb).
    + destruct i as [| i]; cbn in Hi |- *.
      * injection Hi as <-. congruence.
      * apply (IH i b Hi Hb).
Qed.

End Dividers.

(** X19. [add_dividers_to_modal] keeps every block, in order, and adds one
    divider per section block, right after it: the new list is longer by the
    number of sections, the old list is a sublist of it, and in it every
    section is followed by a divider.  A modal without blocks gets an empty
    list. *)
Theorem dividers_follow_sections {Block : Type} (block_type : Block -> option string)
    (divider : Block) (blocks : list Block) :
  block_type divider = Some "divider" ->
  let result := Modals.add_dividers_to_modal block_type divider (Some blocks) in
  length result
  = (length blocks + length (List.filter (Modals.is_section block_type) blocks))%nat
  /\ blocks `sublist_of` result
  /\ (forall (i : nat) (b : Block),
        result !! i = Some b -> Modals.is_section block_type b = true ->
        result !! S i = Some divider)
  /\ Modals.add_dividers_to_modal block_type divider None = [].
Proof.
  intros Hd result. subst result.
  split; [apply add_dividers_length |].
  split; [apply add_dividers_sublist |].
  split; [apply add_dividers_follow, Hd | reflexivity].
Qed.

(** X19 on blocks that are just their type. *)
Lemma dividers_follow_sections_witness :
  Modals.add_dividers_to_modal Some "divider" (Some ["section"; "input"; "section"])
  = ["section"; "divider"; "input"; "section"; "divider"]
  /\ (forall (i : nat) (b : string),
        Modals.add_dividers_to_modal Some "divider" (Some ["section"; "input"; "section"]) !! i
        = Some b ->
        Modals.is_section Some b = true ->
        Modals.add_dividers_to_modal Some "divider" (Some ["section"; "input"; "section"]) !! S i
        = Some "divider").
Proof.
  split; [reflexivity |].
  apply (dividers_follow_sections Some "divider" ["section"; "input"; "section"] eq_refl).
Defined.


(** ** Blank deliverables: how many subtasks *)

Section Strings.

Lemma append_cons (c : ascii) (a b : string) : String c a +:+ b = String c (a +:+ b).
Proof. reflexivity. Qed.

Lemma append_nil_r (a : string) : a +:+ "" = a.
Proof. induction a as [| c a IH]; [reflexivity | rewrite append_cons, IH; reflexivity]. Qed.

Lemma append_assoc (a b c : string) : (a +:+ b) +:+ c = a +:+ (b +:+ c).
Proof. induction a as [| x a IH]; [reflexivity | rewrite !append_cons, IH; reflexivity]. Qed.

Lemma length_append (a b : string) :
  String.length (a +:+ b) = (String.length a + String.length b)%nat.
Proof.
  induction a as [| x a IH]; [reflexivity |]. rewrite append_cons. cbn. rewrite IH. reflexivity.
Qed.

Lemma strip_prefix_eq (w s s' : string) : Py.strip_prefix w s = Some s' -> s = w +:+ s'.
Proof.
  revert s. induction w as [| a w IH]; intros s H; cbn in H.
  - injection H as ->. reflexivity.
  - destruct s as [| b s]; [discriminate |].
    destruct (Ascii.eqb a b) eqn:E; [| discriminate].
    apply Ascii.eqb_eq in E. subst b. rewrite append_cons. f_equal. apply IH, H.
Qed.

Lemma strip_prefix_self (w x : string) : Py.strip_prefix w (w +:+ x) = Some x.
Proof.
  induction w as [| a w IH]; [reflexivity |].
  rewrite append_cons. cbn. rewrite Ascii.eqb_refl. exact IH.
Qed.

Lemma strip_prefix_app (u a b x : string) :
  Py.strip_prefix u a = Some x -> Py.strip_prefix u (a +:+ b) = Some (x +:+ b).
Proof.
  intros H. apply strip_prefix_eq in H. subst a. rewrite append_assoc.
  apply strip_prefix_self.
Qed.

Lemma list_ascii_of_append (a b : string) :
  list_ascii_of_string (a +:+ b) = list_ascii_of_string a ++ list_ascii_of_string b.
Proof.
  induction a as [| x a IH]; [reflexivity |]. rewrite append_cons. cbn. rewrite IH. reflexivity.
Qed.

Lemma string_of_list_app (l k : list ascii) :
  string_of_list_ascii (l ++ k) = string_of_list_ascii l +:+ string_of_list_ascii k.
Proof.
  induction l as [| x l IH]; [reflexivity |]. cbn. rewrite append_cons, IH. reflexivity.
Qed.

Lemma rev_string_involutive (s : string) : Py.rev_string (Py.rev_string s) = s.
Proof.
  unfold Py.rev_string. rewrite list_ascii_of_string_of_list_ascii, rev_involutive.
  apply string_of_list_ascii_of_string.
Qed.

Lemma rev_string_append (a b : string) :
  Py.rev_string (a +:+ b) = Py.rev_string b +:+ Py.rev_string a.
Proof.
  unfold Py.rev_string. rewrite list_ascii_of_append, rev_app_distr.
  apply string_of_list_app.
Qed.

End Strings.

Section Whitespace.
Variable ws : list string.
Hypothesis ws_nonempty : Forall (fun w => w <> "") ws.

Lemma drop_one_token (s s' : string) :
  Py.drop_one ws s = Some s' -> exists w, w ∈ ws /\ Py.strip_prefix w s = Some s'.
Proof.
  clear ws_nonempty. induction ws as [| w l IH]; cbn; [discriminate |].
  destruct (Py.strip_prefix w s) as [r |] eqn:E.
  - intros [= <-]. exists w. split; [left | exact E].
  - intros H. destruct (IH H) as (u & Hu & Hs). exists u. split; [right; exact Hu | exact Hs].
Qed.

Lemma drop_one_found (w s x : string) :
  w ∈ ws -> Py.strip_prefix w s = Some x -> is_Some (Py.drop_one ws s).
Proof.
  clear ws_nonempty. induction ws as [| u l IH]; intros Hin Hs.
  - apply elem_of_nil in Hin. destruct Hin.
  - cbn. destruct (Py.strip_prefix u s) as [r |] eqn:E; [eexists; reflexivity |].
    apply elem_of_cons in Hin as [-> | Hin]; [congruence |]. apply IH; assumption.
Qed.

Lemma drop_one_shorter (s s' : string) :
  Py.drop_one ws s = Some s' -> (String.length s' < String.length s)%nat.
Proof.
  intros H. destruct (drop_one_token s s' H) as (w & Hw & Hs).
  apply strip_prefix_eq in Hs. subst s. rewrite length_append.
  assert (w <> "") by (eapply Forall_forall in ws_nonempty; [exact ws_nonempty | exact Hw]).
  destruct w; [congruence | cbn; lia].
Qed.

(** With fuel for every character, [drop_leading] stops at the empty string
    or at a string that starts with no token. *)
Lemma drop_leading_stops (n : nat) (s : string) :
  (String.length s <= n)%nat ->
  Py.drop_leading n ws s = "" \/ Py.drop_one ws (Py.drop_leading n ws s) = None.
Proof.
  revert s. induction n as [| n IH]; intros s Hn.
  - destruct s; [left; reflexivity | cbn in Hn; lia].
  - cbn. destruct (Py.drop_one ws s) as [s' |] eqn:E.
    + apply IH. apply drop_one_shorter in E. lia.
    + right. exact E.
Qed.

(** A non-empty string that [drop_leading] consumes whole ends with a
    token. *)
Lemma drop_leading_consumed (n : nat) (x : string) :
  Py.drop_leading n ws x = "" -> x <> "" -> exists w y, w ∈ ws /\ x = y +:+ w.
Proof.
  clear ws_nonempty. revert x. induction n as [| n IH]; intros x H Hx; cbn in H.
  - congruence.
  - destruct (Py.drop_one ws x) as [x' |] eqn:E; [| congruence].
    destruct (drop_one_token x x' E) as (w & Hw & Hs). apply strip_prefix_eq in Hs.
    destruct (decide (x' = "")) as [-> | Hx'].
    + exists w, "". split; [exact Hw |]. rewrite Hs. apply append_nil_r.
    + destruct (IH x' H Hx') as (w0 & y & Hw0 & Hy). exists w0, (w +:+ y).
      split; [exact Hw0 |]. rewrite Hs, Hy. symmetry. apply append_assoc.
Qed.

End Whitespace.

Lemma drop_one_first (ws : list string) (s s' : string) :
  Py.drop_one ws s = Some s' ->
  exists ws1 w ws2,
    ws = ws1 ++ w :: ws2 /\ Py.strip_prefix w s = Some s'
    /\ Forall (fun u => Py.strip_prefix u s = None) ws1.
Proof.
  induction ws as [| u l IH]; cbn; [discriminate |].
  destruct (Py.strip_prefix u s) as [r |] eqn:E.
  - intros [= <-]. exists [], u, l. repeat split; [exact E | constructor].
  - intros H. destruct (IH H) as (ws1 & w & ws2 & -> & Hw & Hall).
    exists (u :: ws1), w, ws2. repeat split; [exact Hw | constructor; assumption].
Qed.

Lemma drop_one_intro (ws1 ws2 : list string) (w x r : string) :
  Forall (fun u => Py.strip_prefix u x = None) ws1 ->
  Py.strip_prefix w x = Some r ->
  Py.drop_one (ws1 ++ w :: ws2) x = Some r.
Proof.
  intros Hall Hw. induction Hall as [| u l Hu _ IH]; cbn.
  - rewrite Hw. reflexivity.
  - rewrite Hu. exact IH.
Qed.

Lemma whitespace_nonempty : Forall (fun w => w <> "") Py.whitespace.
Proof. vm_compute. repeat constructor; discriminate. Qed.

(** The newline is a whitespace character of its own; no other one holds a
    newline byte. *)
Lemma whitespace_newline :
  Forall (fun w => w = Py.NL \/ Py.newline_free w = true) Py.whitespace.
Proof.
  vm_compute.
  repeat (apply Forall_cons; split; [first [left; reflexivity | right; reflexivity] |]).
  apply Forall_nil. exact I.
Qed.

Lemma split_lines_nonempty (s : string) : exists h t, Py.split_lines s = h :: t.
Proof.
  induction s as [| c s (h & t & IH)]; cbn; [eauto |].
  destruct (Ascii.eqb c (ascii_of_nat 10)); [eauto |]. rewrite IH. eauto.
Qed.

Lemma split_lines_head (s h : string) (t : list string) :
  Py.split_lines s = h :: t -> exists rest, s = h +:+ rest.
Proof.
  revert h t. induction s as [| c s IH]; intros h t H; cbn in H.
  - injection H as <- <-. exists "". reflexivity.
  - destruct (Ascii.eqb c (ascii_of_nat 10)).
    + injection H as <- <-. exists (String c s). reflexivity.
    + destruct (Py.split_lines s) as [| h0 t0] eqn:E; injection H as <- <-.
      * exists s. reflexivity.
      * destruct (IH h0 t0 eq_refl) as (rest & ->). exists rest. reflexivity.
Qed.

Lemma split_lines_newline_free (w s h : string) (t : list string) :
  Py.newline_free w = true ->
  Py.split_lines s = h :: t ->
  Py.split_lines (w +:+ s) = (w +:+ h) :: t.
Proof.
  intros Hw Hs. induction w as [| c w IH]; [exact Hs |].
  cbn in Hw. apply andb_true_iff in Hw as [Hc Hw]. apply negb_true_iff in Hc.
  rewrite !append_cons. cbn. rewrite Hc, (IH Hw). reflexivity.
Qed.

Lemma drop_leading_blank (n : nat) (s : string) :
  Py.drop_leading n Py.whitespace s = "" -> Py.blank s.
Proof.
  revert s. induction n as [| n IH]; intros s H; cbn [Py.drop_leading] in H.
  - subst s. constructor.
  - destruct (Py.drop_one Py.whitespace s) as [s' |] eqn:E.
    + eapply Py.blank_step; [exact E | apply IH, H].
    + subst s. constructor.
Qed.

Lemma blank_drop_leading (s : string) :
  Py.blank s -> forall n : nat, (String.length s <= n)%nat ->
  Py.drop_leading n Py.whitespace s = "".
Proof.
  induction 1 as [| s s' Hd _ IH]; intros n Hn.
  - destruct n; reflexivity.
  - pose proof (drop_one_shorter Py.whitespace whitespace_nonempty s s' Hd) as Hlt.
    destruct n as [| n]; [lia |]. cbn [Py.drop_leading]. rewrite Hd. apply IH. lia.
Qed.

(** The lines of a blank text are blank. *)
Lemma blank_lines (s : string) : Py.blank s -> Forall Py.blank (Py.split_lines s).
Proof.
  induction 1 as [| s s' Hd Hb IH].
  - repeat constructor.
  - destruct (drop_one_first _ _ _ Hd) as (ws1 & w & ws2 & Hws & Hw & Hall).
    pose proof (strip_prefix_eq _ _ _ Hw) as ->.
    assert (Hin : w ∈ Py.whitespace) by (rewrite Hws; apply elem_of_app; right; left).
    pose proof whitespace_newline as Hnl.
    rewrite Forall_forall in Hnl. destruct (Hnl w Hin) as [-> | Hfree].
    + change (Py.split_lines (Py.NL +:+ s')) with ("" :: Py.split_lines s').
      constructor; [constructor | exact IH].
    + destruct (split_lines_nonempty s') as (h & t & Hs').
      rewrite (split_lines_newline_free w s' h t Hfree Hs').
      rewrite Hs' in IH. apply Forall_cons in IH as [Hh Ht].
      constructor; [| exact Ht].
      eapply Py.blank_step; [| exact Hh]. rewrite Hws. apply drop_one_intro.
      * destruct (split_lines_head s' h t Hs') as (rest & Hrest).
        eapply Forall_impl; [exact Hall |]. intros u Hu. cbn beta in Hu.
        destruct (Py.strip_prefix u (w +:+ h)) as [y |] eqn:Ey; [| reflexivity].
        apply (strip_prefix_app u (w +:+ h) rest y) in Ey.
        rewrite append_assoc, <- Hrest in Ey. congruence.
      * apply strip_prefix_self.
Qed.

(** A text that [strip] empties is already emptied by [lstrip]. *)
Lemma strip_empty_lstrip (s : string) : Py.strip s = "" -> Py.lstrip s = "".
Proof.
  unfold Py.strip. set (r := Py.lstrip s). intros Hr.
  destruct (decide (r = "")) as [He | Hne]; [exact He | exfalso].
  assert (Hstop : r = "" \/ Py.drop_one Py.whitespace r = None).
  { subst r. unfold Py.lstrip. apply drop_leading_stops; [apply whitespace_nonempty | lia]. }
  destruct Hstop as [He | Hnone]; [congruence |].
  unfold Py.rstrip in Hr.
  assert (Hd : Py.drop_leading (String.length r) (List.map Py.rev_string Py.whitespace)
                 (Py.rev_string r) = "").
  { rewrite <- (rev_string_involutive (Py.drop_leading _ _ _)), Hr. reflexivity. }
  assert (Hrev : Py.rev_string r <> "").
  { intros H0. apply Hne. rewrite <- (rev_string_involutive r), H0. reflexivity. }
  destruct (drop_leading_consumed _ _ _ Hd Hrev) as (w' & y & Hw' & Hy).
  apply list_elem_of_In, in_map_iff in Hw' as (w & <- & Hw).
  assert (Hpre : r = w +:+ Py.rev_string y).
  { rewrite <- (rev_string_involutive r), Hy, rev_string_append, rev_string_involutive.
    reflexivity. }
  destruct (drop_one_found Py.whitespace w r (Py.rev_string y)) as [x Hx].
  - apply list_elem_of_In, Hw.
  - rewrite Hpre. apply strip_prefix_self.
  - congruence.
Qed.

(** A text that [strip] empties has no line that [strip] leaves
    non-empty. *)
Lemma blank_text_has_no_item (text : string) :
  Py.truthy (Py.strip text) = false ->
  List.filter (fun item => Py.truthy (Py.strip item)) (Py.split_lines text) = [].
Proof.
  intros Ht.
  assert (Hs : Py.strip text = "") by (destruct (Py.strip text); [reflexivity | discriminate]).
  apply strip_empty_lstrip in Hs. apply drop_leading_blank, blank_lines in Hs.
  induction Hs as [| line lines Hline _ IH]; [reflexivity |].
  cbn [List.filter].
  replace (Py.strip line) with "".
  - exact IH.
  - unfold Py.strip, Py.lstrip. rewrite (blank_drop_leading line Hline); [reflexivity | lia].
Qed.

(** Three deliverable lines, one of them blank. *)
Example subtasks_for_three_lines :
  length (Monday._create_campaign_subtasks (fun _ => 0) Samples.noon "task_0"
            ("Banner ad" +:+ Py.NL +:+ "   " +:+ Py.NL +:+ "Landing page") "") = 5%nat.
Proof. vm_compute. reflexivity. Qed.

(** X20. The unified workflow has 3 subtasks and one more for each line of
    the deliverables text that is not blank: its test on the whole text
    changes nothing, so an empty text, or one of whitespace alone, gives
    exactly the 3 standard subtasks. *)
Theorem subtasks_count_nonblank_lines (hash : string -> Z) (now : Datetime.datetime)
    (parent_task_id deliverables event_dates : string) :
  length (Monday._create_campaign_subtasks hash now parent_task_id deliverables event_dates)
  = (3 + length (List.filter (fun line => Py.truthy (Py.strip line))
                   (Py.split_lines deliverables)))%nat.
Proof.
  rewrite create_campaign_subtasks_shape, length_app, !length_imap.
  cbn [Monday.standard_subtasks length]. f_equal.
  destruct (Py.truthy deliverables) eqn:Ed; cbn [andb].
  - destruct (Py.truthy (Py.strip deliverables)) eqn:Es.
    + unfold Monday.deliverable_items. rewrite !length_map. reflexivity.
    + rewrite (blank_text_has_no_item deliverables Es). reflexivity.
  - destruct deliverables; [reflexivity | discriminate].
Qed.
